(** * The PCAP extractor datasource backend (pkg/plugin/datasource.go)

    A shallow embedding of the Go backend of the Grafana plugin: the query
    dispatcher, the request and status handlers, the two helpers that talk
    to AWS and the health check.  The handlers are written in a small monad
    that threads the state of the injected clients, records every call made
    to them (and to the SDK logger) and can panic, so that statements such
    as "describe-execution is never invoked" are statements about the
    recorded events of a run.  The [context.Context] that every function
    passes on unread is left out. *)

From Stdlib Require Import ZArith List String Ascii Bool Lia DecimalString.
From stdpp Require Import base option gmap strings.
Import ListNotations.

Local Open Scope string_scope.
Local Open Scope list_scope.
Local Open Scope Z_scope.

(** ** Values shared with the SDKs *)

(** A Go [error] is identified with the text of its [Error()] method; this
    is the only thing the plugin ever does with one ([%v], [%w],
    [err.Error()]). *)
Definition error : Type := string.

(** A call returning [(T, error)] follows the Go convention: either a value
    and a nil error, or an error. *)
Definition result (T : Type) : Type := (T + error)%type.

(** [map[string][]int]: the packets to extract per source file. *)
Abbreviation ExtractMap := (gmap string (list Z)).

Module models.
(** Modelled from the spec: the declaration of [models.PluginSettings]
    (pkg/models) is not among the sources.  The spec names two required
    settings, a workflow identifier string and a storage bucket name
    string; the field names are the ones the backend reads and the tests
    set. *)
Record PluginSettings : Type := mkPluginSettings {
  StepFunctionArn : string;
  S3Bucket : string
}.
End models.

Module arn.
(** github.com/aws/aws-sdk-go-v2/aws/arn.ARN *)
Record ARN : Type := mkARN {
  Partition : string;
  Service : string;
  Region : string;
  AccountID : string;
  Resource : string
}.
End arn.

Module time.
(** [time.Duration] counts nanoseconds in an int64. *)
Definition Duration : Type := Z.
Definition Nanosecond : Duration := 1.
Definition Microsecond : Duration := 1000 * Nanosecond.
Definition Millisecond : Duration := 1000 * Microsecond.
Definition Second : Duration := 1000 * Millisecond.
Definition Minute : Duration := 60 * Second.
Definition Hour : Duration := 60 * Minute.
End time.

Module sfn.

Module StartExecutionInput.
(** The SDK has [*string] members; the backend always fills all three. *)
Record t : Type := mk {
  Name : string;
  StateMachineArn : string;
  Input : string
}.
End StartExecutionInput.

Module StartExecutionOutput.
(** [ExecutionArn] is a required member of the service's answer. *)
Record t : Type := mk { ExecutionArn : string }.
End StartExecutionOutput.

Module DescribeExecutionInput.
Record t : Type := mk { ExecutionArn : string }.
End DescribeExecutionInput.

Module DescribeExecutionOutput.
(** [Status] is [types.ExecutionStatus], a string; [Error] and [Cause] are
    [*string] and may be nil. *)
Record t : Type := mk {
  Status : string;
  Error : option string;
  Cause : option string
}.
End DescribeExecutionOutput.

Module DescribeStateMachineInput.
Record t : Type := mk { StateMachineArn : string }.
End DescribeStateMachineInput.

Module DescribeStateMachineOutput.
(** Nothing of the answer is read. *)
Record t : Type := mk { }.
End DescribeStateMachineOutput.

End sfn.

Module s3.

Module GetObjectInput.
Record t : Type := mk { Bucket : string; Key : string }.
End GetObjectInput.

Module PresignOptions.
(** Only [Expires] is touched by the plugin. *)
Record t : Type := mk { Expires : time.Duration }.
End PresignOptions.

(** The variadic option functions of a presign call: each one updates
    the options in place. *)
Definition OptFn : Type := PresignOptions.t -> PresignOptions.t.

Definition applyOptFns (fns : list OptFn) (o : PresignOptions.t)
  : PresignOptions.t :=
  fold_left (fun acc f => f acc) fns o.

End s3.

Module v4.
Module PresignedHTTPRequest.
Record t : Type := mk { URL : string }.
End PresignedHTTPRequest.
End v4.

Module data.

Module Field.
(** [data.NewField(name, labels, values)] with a [[]string] vector. *)
Record t : Type := mk {
  Name : string;
  Labels : option (list (string * string));
  Values : list string
}.
End Field.

Definition NewField (name : string)
  (labels : option (list (string * string))) (values : list string)
  : Field.t :=
  Field.mk name labels values.

Module Frame.
Record t : Type := mk {
  Name : string;
  Fields : list Field.t
}.
End Frame.

Definition NewFrame (name : string) : Frame.t := Frame.mk name [].

(** [frame.Fields = append(frame.Fields, fs...)] *)
Definition appendFields (frame : Frame.t) (fs : list Field.t) : Frame.t :=
  Frame.mk (Frame.Name frame) (Frame.Fields frame ++ fs).

End data.

Module backend.

(** [backend.Status] is an int holding an HTTP status code. *)
Definition Status : Type := Z.
Definition StatusOK : Status := 200.
Definition StatusBadRequest : Status := 400.

Module DataResponse.
Record t : Type := mk {
  Frames : list data.Frame.t;
  Error : option error;
  Status : backend.Status
}.
End DataResponse.

(** [var response backend.DataResponse] *)
Definition zeroDataResponse : DataResponse.t := DataResponse.mk [] None 0.

(** [backend.ErrDataResponse(status, message)] *)
Definition ErrDataResponse (status : Status) (message : string)
  : DataResponse.t :=
  DataResponse.mk [] (Some message) status.

(** [response.Frames = append(response.Frames, fs...)] *)
Definition appendFrames (r : DataResponse.t) (fs : list data.Frame.t)
  : DataResponse.t :=
  DataResponse.mk (DataResponse.Frames r ++ fs) (DataResponse.Error r)
                  (DataResponse.Status r).

Inductive HealthStatus : Type :=
| HealthStatusUnknown
| HealthStatusOk
| HealthStatusError.

Module CheckHealthResult.
Record t : Type := mk {
  Status : HealthStatus;
  Message : string
}.
End CheckHealthResult.

Module DataQuery.
(** [JSON] is the raw payload sent by the dashboard. *)
Record t : Type := mk {
  RefID : string;
  JSON : string
}.
End DataQuery.

(** The plugin context is passed to [query] and never read. *)
Record PluginContext : Type := mkPluginContext { OrgID : Z }.

Module CheckHealthRequest.
(** The request of a health check is never read either. *)
Record t : Type := mk { PluginContext : backend.PluginContext }.
End CheckHealthRequest.

Inductive LogLevel : Type := Debug | Info | Warn | Error.

End backend.

(** ** The plugin's own types *)

Record queryModel : Type := mkQueryModel {
  Action : string;
  JobId : string;
  Extract : ExtractMap
}.

Module StepFunctionInput.
Record t : Type := mk {
  JobId : string;
  Bucket : string;
  Extract : ExtractMap
}.
End StepFunctionInput.

(** ** Events of a run *)

(** The key/value arguments handed to the logger. *)
Inductive logArg : Type :=
| LString (s : string)
| LExtract (m : ExtractMap)
| LError (e : error).

(** One entry per call that leaves the plugin, in the order of the calls,
    with the answer the client gave. *)
Inductive event : Type :=
| StartExecutionCall (i : sfn.StartExecutionInput.t)
    (r : result sfn.StartExecutionOutput.t)
| DescribeExecutionCall (i : sfn.DescribeExecutionInput.t)
    (r : result sfn.DescribeExecutionOutput.t)
| DescribeStateMachineCall (i : sfn.DescribeStateMachineInput.t)
    (r : result sfn.DescribeStateMachineOutput.t)
| PresignGetObjectCall (i : s3.GetObjectInput.t) (optFns : list s3.OptFn)
    (r : result v4.PresignedHTTPRequest.t)
| LogCall (lvl : backend.LogLevel) (msg : string) (args : list logArg).

(** ** The two client interfaces

    A client is a record of methods over the state [W] of whatever stands
    behind it (AWS, or the state of a mock). *)

Record SFNClientInterface (W : Type) : Type := mkSFNClient {
  StartExecution :
    sfn.StartExecutionInput.t -> W -> result sfn.StartExecutionOutput.t * W;
  DescribeExecution :
    sfn.DescribeExecutionInput.t -> W ->
    result sfn.DescribeExecutionOutput.t * W;
  DescribeStateMachine :
    sfn.DescribeStateMachineInput.t -> W ->
    result sfn.DescribeStateMachineOutput.t * W
}.
Arguments StartExecution {W}.
Arguments DescribeExecution {W}.
Arguments DescribeStateMachine {W}.

Record S3PresignerInterface (W : Type) : Type := mkS3Presigner {
  PresignGetObject :
    s3.GetObjectInput.t -> list s3.OptFn -> W ->
    result v4.PresignedHTTPRequest.t * W
}.
Arguments PresignGetObject {W}.

(** The interface-typed fields may hold nil. *)
Record Datasource (W : Type) : Type := mkDatasource {
  settings : models.PluginSettings;
  sfnClient : option (SFNClientInterface W);
  s3Presigner : option (S3PresignerInterface W)
}.
Arguments settings {W}.
Arguments sfnClient {W}.
Arguments s3Presigner {W}.

(** ** The monad of a handler run *)

Inductive outcome (A : Type) : Type :=
| Returned (a : A)
| Panicked (msg : string).
Arguments Returned {A}.
Arguments Panicked {A}.

(** A computation takes the state of the clients and gives an outcome, the
    events it caused, and the new state. *)
Definition M (W A : Type) : Type := W -> outcome A * list event * W.

Definition ret {W A} (a : A) : M W A := fun w => (Returned a, [], w).

Definition bind {W A B} (m : M W A) (k : A -> M W B) : M W B :=
  fun w =>
    match m w with
    | (Returned a, tr, w1) =>
        match k a w1 with
        | (o, tr', w2) => (o, tr ++ tr', w2)
        end
    | (Panicked msg, tr, w1) => (Panicked msg, tr, w1)
    end.

Notation "'let*' x ':=' m 'in' k" := (bind m (fun x => k))
  (at level 10, x name, m at level 100, k at level 200).

(** ** Calls that leave the plugin *)

Module Logger.
(** [backend.Logger]: a call is recorded and changes nothing else. *)
Definition log {W} (lvl : backend.LogLevel) (msg : string)
  (args : list logArg) : M W unit :=
  fun w => (Returned tt, [LogCall lvl msg args], w).
Definition Debug {W} := @log W backend.Debug.
Definition Info {W} := @log W backend.Info.
Definition Warn {W} := @log W backend.Warn.
Definition Error {W} := @log W backend.Error.
End Logger.

(** A method call on a nil interface value panics. *)
Definition nilDereference : string :=
  "runtime error: invalid memory address or nil pointer dereference".

Definition callStartExecution {W} (c : option (SFNClientInterface W))
  (i : sfn.StartExecutionInput.t) : M W (result sfn.StartExecutionOutput.t) :=
  fun w =>
    match c with
    | None => (Panicked nilDereference, [], w)
    | Some c =>
        let '(r, w') := StartExecution c i w in
        (Returned r, [StartExecutionCall i r], w')
    end.

Definition callDescribeExecution {W} (c : option (SFNClientInterface W))
  (i : sfn.DescribeExecutionInput.t)
  : M W (result sfn.DescribeExecutionOutput.t) :=
  fun w =>
    match c with
    | None => (Panicked nilDereference, [], w)
    | Some c =>
        let '(r, w') := DescribeExecution c i w in
        (Returned r, [DescribeExecutionCall i r], w')
    end.

Definition callDescribeStateMachine {W} (c : option (SFNClientInterface W))
  (i : sfn.DescribeStateMachineInput.t)
  : M W (result sfn.DescribeStateMachineOutput.t) :=
  fun w =>
    match c with
    | None => (Panicked nilDereference, [], w)
    | Some c =>
        let '(r, w') := DescribeStateMachine c i w in
        (Returned r, [DescribeStateMachineCall i r], w')
    end.

Definition callPresignGetObject {W} (p : option (S3PresignerInterface W))
  (i : s3.GetObjectInput.t) (optFns : list s3.OptFn)
  : M W (result v4.PresignedHTTPRequest.t) :=
  fun w =>
    match p with
    | None => (Panicked nilDereference, [], w)
    | Some p =>
        let '(r, w') := PresignGetObject p i optFns w in
        (Returned r, [PresignGetObjectCall i optFns r], w')
    end.

(** ** Library functions *)

(** The functions of encoding/json and of the SDK's arn package that the
    backend calls; their code is not part of the plugin, so the handlers
    are stated over any implementation of them. *)
Class GoLibraries : Type := mkGoLibraries {
  (** [json.Unmarshal(raw, &qm)] into a zero [queryModel] *)
  json_Unmarshal : string -> result queryModel;
  (** [json.Marshal(input)] *)
  json_Marshal : StepFunctionInput.t -> result string;
  (** [arn.Parse(s)] *)
  arn_Parse : string -> result arn.ARN
}.

Fixpoint dropString (n : nat) (s : string) : string :=
  match n, s with
  | O, _ => s
  | S n', String _ s' => dropString n' s'
  | S _, EmptyString => EmptyString
  end.

(** [strings.Replace(s, old, new, 1)]: the first occurrence of [old] in [s]
    is replaced by [new]; without one, [s] is returned. *)
Fixpoint strings_Replace1 (s old new : string) : string :=
  if String.prefix old s then new +:+ dropString (String.length old) s
  else
    match s with
    | EmptyString => EmptyString
    | String c s' => String c (strings_Replace1 s' old new)
    end.

(** [strings.Join(elems, sep)] *)
Definition strings_Join (elems : list string) (sep : string) : string :=
  String.concat sep elems.

(** ** The datasource *)

Section Backend.

Context {W : Type} {libs : GoLibraries}.

Definition validateSettings (d : Datasource W) : option error :=
  if (models.StepFunctionArn (settings d) =? "")%string then
    Some "Step Function ARN not configured"
  else if (models.S3Bucket (settings d) =? "")%string then
    Some "S3 Bucket name not configured"
  else None.

Definition executeStepFunction (d : Datasource W) (name : string)
  (input : StepFunctionInput.t) : M W (result string) :=
  match json_Marshal input with
  | inr err =>
      ret (inr ("failed to marshal Step Function input: " +:+ err))
  | inl inputJSON =>
      let inputStr := inputJSON in
      let* r :=
        callStartExecution (sfnClient d)
          (sfn.StartExecutionInput.mk name
             (models.StepFunctionArn (settings d)) inputStr) in
      match r with
      | inr err =>
          ret (inr ("failed to execute Step Function execution: " +:+ err))
      | inl result => ret (inl (sfn.StartExecutionOutput.ExecutionArn result))
      end
  end.

Definition generatePresignedURL (d : Datasource W) (bucket key : string)
  : M W (result string) :=
  match s3Presigner d with
  | None => ret (inr "S3 presigner is not initialized")
  | Some _ =>
      (* the option function sets opts.Expires, the one field kept here *)
      let* r :=
        callPresignGetObject (s3Presigner d)
          (s3.GetObjectInput.mk bucket key)
          [fun _ => s3.PresignOptions.mk (time.Hour * 1)] in
      match r with
      | inr err => ret (inr ("failed to generate presigned URL: " +:+ err))
      | inl request => ret (inl (v4.PresignedHTTPRequest.URL request))
      end
  end.

Definition handleRequestAction (d : Datasource W) (qm : queryModel)
  : M W backend.DataResponse.t :=
  let response := backend.zeroDataResponse in
  if (size (Extract qm) =? 0)%nat then
    ret (backend.ErrDataResponse backend.StatusBadRequest
           "Extract parameter is required for request action")
  else if (JobId qm =? "")%string then
    ret (backend.ErrDataResponse backend.StatusBadRequest
           "JobId is required for request action")
  else
    let* _ :=
      Logger.Info "Processing request action"
        [LString "jobId"; LString (JobId qm);
         LString "extract"; LExtract (Extract qm)] in
    let sfnInput :=
      StepFunctionInput.mk (JobId qm) (models.S3Bucket (settings d))
                           (Extract qm) in
    let* r := executeStepFunction d (JobId qm) sfnInput in
    match r with
    | inr err =>
        let* _ :=
          Logger.Error "Failed to execute Step Function"
            [LString "error"; LError err] in
        ret (backend.ErrDataResponse backend.StatusBadRequest
               ("Step Function execution failed: " +:+ err))
    | inl executionArn =>
        let* _ :=
          Logger.Debug "Step Function executed successfully"
            [LString "executionArn"; LString executionArn] in
        let frame := data.NewFrame "step_function_request" in
        let frame :=
          data.appendFields frame
            [data.NewField "status" None ["RUNNING"];
             data.NewField "job_id" None [JobId qm]] in
        let response := backend.appendFrames response [frame] in
        ret response
    end.

Definition handleStatusAction (d : Datasource W) (qm : queryModel)
  : M W backend.DataResponse.t :=
  let response := backend.zeroDataResponse in
  if (JobId qm =? "")%string then
    ret (backend.ErrDataResponse backend.StatusBadRequest
           "JobId is required for status action")
  else
    let* _ :=
      Logger.Info "Processing status action"
        [LString "jobId"; LString (JobId qm)] in
    match arn_Parse (models.StepFunctionArn (settings d)) with
    | inr err =>
        ret (backend.ErrDataResponse backend.StatusBadRequest
               ("Failed to parse Step Function ARN: " +:+ err))
    | inl arn =>
        let executionArn :=
          "arn:aws:states:" +:+ arn.Region arn +:+ ":" +:+
          arn.AccountID arn +:+ ":execution:" +:+
          strings_Replace1 (arn.Resource arn) "stateMachine:" "" +:+ ":" +:+
          JobId qm in
        let* _ :=
          Logger.Info "Trying to describe Step Function execution"
            [LString "arn"; LString executionArn] in
        let* r :=
          callDescribeExecution (sfnClient d)
            (sfn.DescribeExecutionInput.mk executionArn) in
        match r with
        | inr err =>
            let* _ :=
              Logger.Error "Failed to describe Step Function execution"
                [LString "error"; LError err] in
            ret (backend.ErrDataResponse backend.StatusBadRequest
                   ("Failed to get execution status: " +:+ err))
        | inl result =>
            let status := sfn.DescribeExecutionOutput.Status result in
            let* _ :=
              Logger.Info "Step Function execution status"
                [LString "status"; LString status;
                 LString "executionArn"; LString executionArn] in
            let frame := data.NewFrame "step_function_status" in
            let frame :=
              data.appendFields frame [data.NewField "status" None [status]] in
            (* Add error information if execution failed *)
            let frame :=
              if (status =? "FAILED")%string then
                match sfn.DescribeExecutionOutput.Error result with
                | Some e =>
                    data.appendFields frame [data.NewField "error" None [e]]
                | None => frame
                end
              else frame in
            (* Add cause information if available *)
            let frame :=
              match sfn.DescribeExecutionOutput.Cause result with
              | Some c =>
                  data.appendFields frame [data.NewField "cause" None [c]]
              | None => frame
              end in
            (* If execution is successful, generate presigned URL *)
            let* frame :=
              (if (status =? "SUCCEEDED")%string then
                 let s3Key := JobId qm +:+ ".pcapng" in
                 let* r :=
                   generatePresignedURL d (models.S3Bucket (settings d))
                     s3Key in
                 match r with
                 | inr err =>
                     let* _ :=
                       Logger.Warn
                         "Failed to generate presigned URL for completed execution"
                         [LString "error"; LError err] in
                     ret frame
                 | inl presignedURL =>
                     ret (data.appendFields frame
                            [data.NewField "download_url" None
                               [presignedURL]])
                 end
               else ret frame) in
            let response := backend.appendFrames response [frame] in
            ret response
        end
    end.

Definition query (d : Datasource W) (pCtx : backend.PluginContext)
  (query : backend.DataQuery.t) : M W backend.DataResponse.t :=
  match validateSettings d with
  | Some err =>
      ret (backend.ErrDataResponse backend.StatusBadRequest
             ("Incomplete plugin settings: " +:+ err))
  | None =>
      match json_Unmarshal (backend.DataQuery.JSON query) with
      | inr err =>
          ret (backend.ErrDataResponse backend.StatusBadRequest
                 ("json unmarshal: " +:+ err))
      | inl qm =>
          if (Action qm =? "request")%string then handleRequestAction d qm
          else if (Action qm =? "status")%string then handleStatusAction d qm
          else
            ret (backend.ErrDataResponse backend.StatusBadRequest
                   ("unknown action: '" +:+ Action qm +:+ "'"))
      end
  end.

(** The loop of [QueryData]: one response per query, stored under the
    query's RefID (a later query with the same RefID overwrites). *)
Fixpoint QueryData_loop (d : Datasource W) (pCtx : backend.PluginContext)
  (queries : list backend.DataQuery.t)
  (responses : gmap string backend.DataResponse.t)
  : M W (gmap string backend.DataResponse.t) :=
  match queries with
  | [] => ret responses
  | q :: rest =>
      let* res := query d pCtx q in
      QueryData_loop d pCtx rest (<[backend.DataQuery.RefID q := res]> responses)
  end.

Definition QueryData (d : Datasource W) (pCtx : backend.PluginContext)
  (queries : list backend.DataQuery.t)
  : M W (gmap string backend.DataResponse.t * option error) :=
  let* responses := QueryData_loop d pCtx queries ∅ in
  ret (responses, None).

Definition CheckHealth (d : Datasource W) (req : backend.CheckHealthRequest.t)
  : M W (backend.CheckHealthResult.t * option error) :=
  let messages : list string := [] in
  if (models.S3Bucket (settings d) =? "")%string then
    ret (backend.CheckHealthResult.mk backend.HealthStatusError
           "S3 Bucket name is missing", None)
  else if (models.StepFunctionArn (settings d) =? "")%string then
    ret (backend.CheckHealthResult.mk backend.HealthStatusError
           "Step Function ARN is missing", None)
  else
    (* Test Step Function accessibility; [inl] is the early return *)
    let* checked :=
      (match sfnClient d with
       | Some _ =>
           let* r :=
             callDescribeStateMachine (sfnClient d)
               (sfn.DescribeStateMachineInput.mk
                  (models.StepFunctionArn (settings d))) in
           match r with
           | inr err =>
               ret (inl (backend.CheckHealthResult.mk
                           backend.HealthStatusError
                           ("Cannot access Step Function: " +:+ err)))
           | inl _ => ret (inr (messages ++ ["Step Function is accessible"]))
           end
       | None => ret (inr messages)
       end) in
    match checked with
    | inl res => ret (res, None)
    | inr messages =>
        let messages := messages ++ ["S3 Bucket access is not being tested."] in
        let message := "Data source is working" in
        let message :=
          if (0 <? length messages)%nat then
            "Data source is working: " +:+ strings_Join messages ","
          else message in
        ret (backend.CheckHealthResult.mk backend.HealthStatusOk message, None)
    end.

End Backend.

(** ** Observations on a run *)

Definition outcomeOf {W A} (r : outcome A * list event * W) : outcome A :=
  r.1.1.
Definition eventsOf {W A} (r : outcome A * list event * W) : list event :=
  r.1.2.
Definition stateOf {W A} (r : outcome A * list event * W) : W := r.2.

(** Calls to the workflow engine or to object storage, as opposed to log
    lines. *)
Definition isClientCall (e : event) : bool :=
  match e with
  | LogCall _ _ _ => false
  | _ => true
  end.

Definition clientCalls (tr : list event) : list event :=
  List.filter isClientCall tr.

Definition startExecutionCalls (tr : list event)
  : list sfn.StartExecutionInput.t :=
  flat_map (fun e => match e with
                     | StartExecutionCall i _ => [i]
                     | _ => []
                     end) tr.

Definition describeExecutionCalls (tr : list event)
  : list sfn.DescribeExecutionInput.t :=
  flat_map (fun e => match e with
                     | DescribeExecutionCall i _ => [i]
                     | _ => []
                     end) tr.

Definition presignCalls (tr : list event)
  : list (s3.GetObjectInput.t * list s3.OptFn) :=
  flat_map (fun e => match e with
                     | PresignGetObjectCall i fns _ => [(i, fns)]
                     | _ => []
                     end) tr.

(** Presigned-URL generation succeeded in a run: the presigner was called
    and answered with a request. *)
Definition presignSucceeded (tr : list event) : Prop :=
  exists i fns req, In (PresignGetObjectCall i fns (inl req)) tr.

(** Presigned-URL generation returned an error: there is no presigner, or
    the presigner answered with an error. *)
Definition presignFailed {W} (d : Datasource W) (tr : list event) : Prop :=
  s3Presigner d = None \/
  exists i fns err, In (PresignGetObjectCall i fns (inr err)) tr.

Definition hasField (name : string) (frame : data.Frame.t) : bool :=
  existsb (fun f => (data.Field.Name f =? name)%string)
          (data.Frame.Fields frame).

Definition fieldNames (frame : data.Frame.t) : list string :=
  map data.Field.Name (data.Frame.Fields frame).

(** [strings.Contains(s, substr)], as used by the assertions of the tests. *)
Fixpoint strings_Contains (s substr : string) : bool :=
  String.prefix substr s ||
  match s with
  | EmptyString => false
  | String _ s' => strings_Contains s' substr
  end.

(** ** Stand-ins for the libraries and the clients

    Used to run the handlers on concrete inputs. *)

Module Fixtures.

Definition dq : string := String "034" EmptyString.
Definition quoted (s : string) : string := dq +:+ s +:+ dq.

(** Characters that encoding/json copies verbatim into a JSON string. *)
Definition plainChar (c : ascii) : bool :=
  let n := nat_of_ascii c in
  ((32 <=? n) && (n <? 127) &&
   negb (n =? 34) && negb (n =? 92) &&
   negb (n =? 60) && negb (n =? 62) && negb (n =? 38))%nat.

Fixpoint plainString (s : string) : bool :=
  match s with
  | EmptyString => true
  | String c s' => plainChar c && plainString s'
  end.

(** [arn.Parse] of the SDK: the prefix [arn:] and six sections separated by
    colons, the last one holding the rest of the text. *)
Fixpoint breakColon (s : string) : option (string * string) :=
  match s with
  | EmptyString => None
  | String c s' =>
      if (c =? ":")%char then Some (EmptyString, s')
      else
        match breakColon s' with
        | Some (a, b) => Some (String c a, b)
        | None => None
        end
  end.

Fixpoint splitColonN (n : nat) (s : string) : list string :=
  match n with
  | O => []
  | S O => [s]
  | S n' =>
      match breakColon s with
      | Some (a, b) => a :: splitColonN n' b
      | None => [s]
      end
  end.

Definition parseArn (s : string) : result arn.ARN :=
  if String.prefix "arn:" s then
    match splitColonN 6 s with
    | [_; partition; service; region; account; resource] =>
        inl (arn.mkARN partition service region account resource)
    | _ => inr "arn: not enough sections"
    end
  else inr "arn: invalid prefix".

(** A decoder for payloads of the exact shape
    [{"action":"<a>","JobId":"<j>"}] with plain [<a>] and [<j>]; on these
    it gives what encoding/json gives (no Extract key: a nil map). *)
Definition stripPrefix (p s : string) : option string :=
  if String.prefix p s then Some (dropString (String.length p) s) else None.

Fixpoint takePlain (s : string) : string * string :=
  match s with
  | EmptyString => (EmptyString, EmptyString)
  | String c s' =>
      if plainChar c then
        let '(a, b) := takePlain s' in (String c a, b)
      else (EmptyString, s)
  end.

Definition decodeQuery (raw : string) : result queryModel :=
  match stripPrefix ("{" +:+ quoted "action" +:+ ":" +:+ dq) raw with
  | None => inr "invalid character looking for beginning of value"
  | Some rest =>
      let '(action, rest) := takePlain rest in
      match stripPrefix (dq +:+ "," +:+ quoted "JobId" +:+ ":" +:+ dq) rest with
      | None => inr "invalid character in string literal"
      | Some rest =>
          let '(jobId, rest) := takePlain rest in
          if (rest =? dq +:+ "}")%string then
            inl (mkQueryModel action jobId ∅)
          else inr "invalid character in string literal"
      end
  end.

Definition encodeQuery (action jobId : string) : string :=
  "{" +:+ quoted "action" +:+ ":" +:+ quoted action +:+ "," +:+
  quoted "JobId" +:+ ":" +:+ quoted jobId +:+ "}".

(** An encoder for step-function inputs whose strings are plain and whose
    map has at most one key (so that no ordering of keys is involved). *)
Definition showZ (z : Z) : string :=
  DecimalString.NilZero.string_of_int (Z.to_int z).

Definition encodeInts (l : list Z) : string :=
  "[" +:+ String.concat "," (map showZ l) +:+ "]".

Definition encodeExtract (m : ExtractMap) : option string :=
  match map_to_list m with
  | [] => Some "{}"
  | [(k, l)] =>
      if plainString k then
        Some ("{" +:+ quoted k +:+ ":" +:+ encodeInts l +:+ "}")
      else None
  | _ => None
  end.

Definition encodeInput (i : StepFunctionInput.t) : result string :=
  match encodeExtract (StepFunctionInput.Extract i) with
  | Some e =>
      if plainString (StepFunctionInput.JobId i) &&
         plainString (StepFunctionInput.Bucket i) then
        inl ("{" +:+ quoted "jobId" +:+ ":" +:+
             quoted (StepFunctionInput.JobId i) +:+ "," +:+
             quoted "bucket" +:+ ":" +:+
             quoted (StepFunctionInput.Bucket i) +:+ "," +:+
             quoted "extract" +:+ ":" +:+ e +:+ "}")
      else inr "json: unsupported value"
  | None => inr "json: unsupported value"
  end.

Definition libraries : GoLibraries :=
  mkGoLibraries decodeQuery encodeInput parseArn.

(** Scripted clients in the manner of the mocks of the tests: every method
    gives its scripted answer and counts the call. *)
Definition mockSFN
  (start : result sfn.StartExecutionOutput.t)
  (describe : result sfn.DescribeExecutionOutput.t)
  (machine : result sfn.DescribeStateMachineOutput.t)
  : SFNClientInterface nat :=
  mkSFNClient nat
    (fun _ n => (start, S n))
    (fun _ n => (describe, S n))
    (fun _ n => (machine, S n)).

Definition mockPresigner (answer : result v4.PresignedHTTPRequest.t)
  : S3PresignerInterface nat :=
  mkS3Presigner nat (fun _ _ n => (answer, S n)).

Definition testSettings : models.PluginSettings :=
  models.mkPluginSettings
    "arn:aws:states:us-east-1:123456789012:stateMachine:test-state-machine"
    "test-bucket".

End Fixtures.

(** ** Vocabulary of the statements *)

(** The option function [generatePresignedURL] hands to the presigner:
    it sets [opts.Expires]. *)
Definition hourOption : list s3.OptFn :=
  [fun _ => s3.PresignOptions.mk (time.Hour * 1)].

(** The execution ARN [handleStatusAction] derives from the parsed
    workflow ARN and the job id. *)
Definition executionArnOf (a : arn.ARN) (qm : queryModel) : string :=
  "arn:aws:states:" +:+ arn.Region a +:+ ":" +:+ arn.AccountID a +:+
  ":execution:" +:+ strings_Replace1 (arn.Resource a) "stateMachine:" "" +:+
  ":" +:+ JobId qm.

(** The fields of a status frame before the download step. *)
Definition reportedFields (out : sfn.DescribeExecutionOutput.t)
  : list data.Field.t :=
  [data.Field.mk "status" None [sfn.DescribeExecutionOutput.Status out]] ++
  (if (sfn.DescribeExecutionOutput.Status out =? "FAILED")%string then
     match sfn.DescribeExecutionOutput.Error out with
     | Some e => [data.Field.mk "error" None [e]]
     | None => []
     end
   else []) ++
  match sfn.DescribeExecutionOutput.Cause out with
  | Some c => [data.Field.mk "cause" None [c]]
  | None => []
  end.

(** The events of a status run up to the download step. *)
Definition statusLog (a : arn.ARN) (qm : queryModel)
  (i : sfn.DescribeExecutionInput.t) (out : sfn.DescribeExecutionOutput.t)
  : list event :=
  [LogCall backend.Info "Processing status action"
     [LString "jobId"; LString (JobId qm)];
   LogCall backend.Info "Trying to describe Step Function execution"
     [LString "arn"; LString (executionArnOf a qm)];
   DescribeExecutionCall i (inl out);
   LogCall backend.Info "Step Function execution status"
     [LString "status"; LString (sfn.DescribeExecutionOutput.Status out);
      LString "executionArn"; LString (executionArnOf a qm)]].

(** The three ways [generatePresignedURL] can go. *)
Inductive presignRun {W} (d : Datasource W) (bucket key : string) (w : W)
  : outcome (result string) * list event * W -> Prop :=
| presignRun_nil :
    s3Presigner d = None ->
    presignRun d bucket key w
      (Returned (inr "S3 presigner is not initialized"), [], w)
| presignRun_ok p request w1 :
    s3Presigner d = Some p ->
    PresignGetObject p (s3.GetObjectInput.mk bucket key) hourOption w =
      (inl request, w1) ->
    presignRun d bucket key w
      (Returned (inl (v4.PresignedHTTPRequest.URL request)),
       [PresignGetObjectCall (s3.GetObjectInput.mk bucket key) hourOption
          (inl request)], w1)
| presignRun_err p err w1 :
    s3Presigner d = Some p ->
    PresignGetObject p (s3.GetObjectInput.mk bucket key) hourOption w =
      (inr err, w1) ->
    presignRun d bucket key w
      (Returned (inr ("failed to generate presigned URL: " +:+ err)),
       [PresignGetObjectCall (s3.GetObjectInput.mk bucket key) hourOption
          (inr err)], w1).

(** The response of a request that started an execution. *)
Definition runningResponse (jobId : string) : backend.DataResponse.t :=
  backend.DataResponse.mk
    [data.Frame.mk "step_function_request"
       [data.Field.mk "status" None ["RUNNING"];
        data.Field.mk "job_id" None [jobId]]]
    None 0.

(** ** Concrete datasources and queries *)

Module Examples.
Import Fixtures.

Definition startedOk : result sfn.StartExecutionOutput.t :=
  inl (sfn.StartExecutionOutput.mk
         "arn:aws:states:us-east-1:123456789012:execution:test-state-machine:test-job-123").

Definition machineOk : result sfn.DescribeStateMachineOutput.t :=
  inl sfn.DescribeStateMachineOutput.mk.

Definition presignedUrl : string :=
  "https://test-bucket.s3.amazonaws.com/test-job-123.pcapng?presigned=true".

Definition presignOk : result v4.PresignedHTTPRequest.t :=
  inl (v4.PresignedHTTPRequest.mk presignedUrl).

(** A datasource whose engine answers every describe-execution with
    [out] and whose presigner answers with [presign]. *)
Definition dsDescribing (out : sfn.DescribeExecutionOutput.t)
  (presign : result v4.PresignedHTTPRequest.t) : Datasource nat :=
  mkDatasource nat testSettings
    (Some (mockSFN startedOk (inl out) machineOk))
    (Some (mockPresigner presign)).

Definition succeededPlain : sfn.DescribeExecutionOutput.t :=
  sfn.DescribeExecutionOutput.mk "SUCCEEDED" None None.

Definition succeededWithCause : sfn.DescribeExecutionOutput.t :=
  sfn.DescribeExecutionOutput.mk "SUCCEEDED" None (Some "boom").

Definition failedBoth : sfn.DescribeExecutionOutput.t :=
  sfn.DescribeExecutionOutput.mk "FAILED" (Some "Task failed")
                                 (Some "Network timeout").

Definition dsStarting : Datasource nat := dsDescribing succeededPlain presignOk.

Definition dsInvalidArn : Datasource nat :=
  mkDatasource nat (models.mkPluginSettings "invalid-arn" "test-bucket")
    (Some (mockSFN startedOk (inl succeededPlain) machineOk)) None.

Definition dsNoClients : Datasource nat :=
  mkDatasource nat testSettings None None.

Definition dsUnreachable : Datasource nat :=
  mkDatasource nat testSettings
    (Some (mockSFN startedOk (inl succeededPlain)
             (inr "StateMachineDoesNotExist: State Machine Does Not Exist")))
    None.

Definition dsBlank : Datasource nat :=
  mkDatasource nat (models.mkPluginSettings "" "") None None.

Definition dsNoArn : Datasource nat :=
  mkDatasource nat (models.mkPluginSettings "" "test-bucket")
    (Some (mockSFN startedOk (inl succeededPlain) machineOk))
    (Some (mockPresigner presignOk)).

Definition qmStatus : queryModel := mkQueryModel "status" "test-job-123" ∅.

Definition qmRequest : queryModel :=
  mkQueryModel "request" "test-job-123" {[ "file1.pcap" := [1; 2; 3] ]}.

Definition qmBlankStatus : queryModel := mkQueryModel "status" "" ∅.

(** A request with neither a job id nor anything to extract. *)
Definition qmBlankRequest : queryModel := mkQueryModel "request" "" ∅.

Definition describeInput : sfn.DescribeExecutionInput.t :=
  sfn.DescribeExecutionInput.mk
    "arn:aws:states:us-east-1:123456789012:execution:test-state-machine:test-job-123".

Definition startInput : sfn.StartExecutionInput.t :=
  sfn.StartExecutionInput.mk "test-job-123"
    (models.StepFunctionArn testSettings)
    ("{" +:+ quoted "jobId" +:+ ":" +:+ quoted "test-job-123" +:+ "," +:+
     quoted "bucket" +:+ ":" +:+ quoted "test-bucket" +:+ "," +:+
     quoted "extract" +:+ ":{" +:+ quoted "file1.pcap" +:+ ":[1,2,3]}}").

Definition pluginContext : backend.PluginContext :=
  backend.mkPluginContext 1.

(** The payload [{"action":"bogus","JobId":"job-1"}]. *)
Definition bogusQuery : backend.DataQuery.t :=
  backend.DataQuery.mk "A" (encodeQuery "bogus" "job-1").

Definition healthRequest : backend.CheckHealthRequest.t :=
  backend.CheckHealthRequest.mk pluginContext.

End Examples.

(** ** The runs of the handlers, case by case *)

Section Runs.

Context {W : Type} {libs : GoLibraries}.

(** The log lines of a request run. *)
Definition requestLog (qm : queryModel) : event :=
  LogCall backend.Info "Processing request action"
    [LString "jobId"; LString (JobId qm);
     LString "extract"; LExtract (Extract qm)].

(** The input [handleRequestAction] hands to [json.Marshal]. *)
Definition sfnInputOf (d : Datasource W) (qm : queryModel)
  : StepFunctionInput.t :=
  StepFunctionInput.mk (JobId qm) (models.S3Bucket (settings d)) (Extract qm).

(** Every way [handleRequestAction] can go. *)
Inductive requestRun (d : Datasource W) (qm : queryModel) (w : W)
  : outcome backend.DataResponse.t * list event * W -> Prop :=
| requestRun_noExtract :
    size (Extract qm) = 0%nat ->
    requestRun d qm w
      (Returned (backend.ErrDataResponse backend.StatusBadRequest
                   "Extract parameter is required for request action"),
       [], w)
| requestRun_noJobId :
    size (Extract qm) <> 0%nat ->
    JobId qm = "" ->
    requestRun d qm w
      (Returned (backend.ErrDataResponse backend.StatusBadRequest
                   "JobId is required for request action"),
       [], w)
| requestRun_marshal err :
    size (Extract qm) <> 0%nat ->
    JobId qm <> "" ->
    json_Marshal (sfnInputOf d qm) = inr err ->
    requestRun d qm w
      (Returned (backend.ErrDataResponse backend.StatusBadRequest
                   ("Step Function execution failed: " +:+
                    "failed to marshal Step Function input: " +:+ err)),
       [requestLog qm;
        LogCall backend.Error "Failed to execute Step Function"
          [LString "error";
           LError ("failed to marshal Step Function input: " +:+ err)]],
       w)
| requestRun_nilClient inputJSON :
    size (Extract qm) <> 0%nat ->
    JobId qm <> "" ->
    json_Marshal (sfnInputOf d qm) = inl inputJSON ->
    sfnClient d = None ->
    requestRun d qm w (Panicked nilDereference, [requestLog qm], w)
| requestRun_started inputJSON c out w1 :
    size (Extract qm) <> 0%nat ->
    JobId qm <> "" ->
    json_Marshal (sfnInputOf d qm) = inl inputJSON ->
    sfnClient d = Some c ->
    StartExecution c
      (sfn.StartExecutionInput.mk (JobId qm)
         (models.StepFunctionArn (settings d)) inputJSON) w = (inl out, w1) ->
    requestRun d qm w
      (Returned (runningResponse (JobId qm)),
       [requestLog qm;
        StartExecutionCall
          (sfn.StartExecutionInput.mk (JobId qm)
             (models.StepFunctionArn (settings d)) inputJSON) (inl out);
        LogCall backend.Debug "Step Function executed successfully"
          [LString "executionArn";
           LString (sfn.StartExecutionOutput.ExecutionArn out)]],
       w1)
| requestRun_failed inputJSON c err w1 :
    size (Extract qm) <> 0%nat ->
    JobId qm <> "" ->
    json_Marshal (sfnInputOf d qm) = inl inputJSON ->
    sfnClient d = Some c ->
    StartExecution c
      (sfn.StartExecutionInput.mk (JobId qm)
         (models.StepFunctionArn (settings d)) inputJSON) w = (inr err, w1) ->
    requestRun d qm w
      (Returned (backend.ErrDataResponse backend.StatusBadRequest
                   ("Step Function execution failed: " +:+
                    "failed to execute Step Function execution: " +:+ err)),
       [requestLog qm;
        StartExecutionCall
          (sfn.StartExecutionInput.mk (JobId qm)
             (models.StepFunctionArn (settings d)) inputJSON) (inr err);
        LogCall backend.Error "Failed to execute Step Function"
          [LString "error";
           LError ("failed to execute Step Function execution: " +:+ err)]],
       w1).

(** The download field of a status frame, and the warning logged in its
    place. *)
Definition downloadField (res : result string) : list data.Field.t :=
  match res with
  | inl url => [data.Field.mk "download_url" None [url]]
  | inr _ => []
  end.

Definition downloadWarning (res : result string) : list event :=
  match res with
  | inl _ => []
  | inr err =>
      [LogCall backend.Warn
         "Failed to generate presigned URL for completed execution"
         [LString "error"; LError err]]
  end.

(** Every way [handleStatusAction] can go. *)
Inductive statusRun (d : Datasource W) (qm : queryModel) (w : W)
  : outcome backend.DataResponse.t * list event * W -> Prop :=
| statusRun_noJobId :
    JobId qm = "" ->
    statusRun d qm w
      (Returned (backend.ErrDataResponse backend.StatusBadRequest
                   "JobId is required for status action"),
       [], w)
| statusRun_badArn err :
    JobId qm <> "" ->
    arn_Parse (models.StepFunctionArn (settings d)) = inr err ->
    statusRun d qm w
      (Returned (backend.ErrDataResponse backend.StatusBadRequest
                   ("Failed to parse Step Function ARN: " +:+ err)),
       [LogCall backend.Info "Processing status action"
          [LString "jobId"; LString (JobId qm)]],
       w)
| statusRun_nilClient a :
    JobId qm <> "" ->
    arn_Parse (models.StepFunctionArn (settings d)) = inl a ->
    sfnClient d = None ->
    statusRun d qm w
      (Panicked nilDereference,
       [LogCall backend.Info "Processing status action"
          [LString "jobId"; LString (JobId qm)];
        LogCall backend.Info "Trying to describe Step Function execution"
          [LString "arn"; LString (executionArnOf a qm)]],
       w)
| statusRun_describeFailed a c err w1 :
    JobId qm <> "" ->
    arn_Parse (models.StepFunctionArn (settings d)) = inl a ->
    sfnClient d = Some c ->
    DescribeExecution c
      (sfn.DescribeExecutionInput.mk (executionArnOf a qm)) w =
      (inr err, w1) ->
    statusRun d qm w
      (Returned (backend.ErrDataResponse backend.StatusBadRequest
                   ("Failed to get execution status: " +:+ err)),
       [LogCall backend.Info "Processing status action"
          [LString "jobId"; LString (JobId qm)];
        LogCall backend.Info "Trying to describe Step Function execution"
          [LString "arn"; LString (executionArnOf a qm)];
        DescribeExecutionCall
          (sfn.DescribeExecutionInput.mk (executionArnOf a qm)) (inr err);
        LogCall backend.Error "Failed to describe Step Function execution"
          [LString "error"; LError err]],
       w1)
| statusRun_reported a c out w1 :
    JobId qm <> "" ->
    arn_Parse (models.StepFunctionArn (settings d)) = inl a ->
    sfnClient d = Some c ->
    DescribeExecution c
      (sfn.DescribeExecutionInput.mk (executionArnOf a qm)) w =
      (inl out, w1) ->
    sfn.DescribeExecutionOutput.Status out <> "SUCCEEDED" ->
    statusRun d qm w
      (Returned
         (backend.DataResponse.mk
            [data.Frame.mk "step_function_status" (reportedFields out)]
            None 0),
       statusLog a qm (sfn.DescribeExecutionInput.mk (executionArnOf a qm))
         out,
       w1)
| statusRun_succeeded a c out w1 res tr w2 :
    JobId qm <> "" ->
    arn_Parse (models.StepFunctionArn (settings d)) = inl a ->
    sfnClient d = Some c ->
    DescribeExecution c
      (sfn.DescribeExecutionInput.mk (executionArnOf a qm)) w =
      (inl out, w1) ->
    sfn.DescribeExecutionOutput.Status out = "SUCCEEDED" ->
    presignRun d (models.S3Bucket (settings d)) (JobId qm +:+ ".pcapng") w1
      (Returned res, tr, w2) ->
    statusRun d qm w
      (Returned
         (backend.DataResponse.mk
            [data.Frame.mk "step_function_status"
               (reportedFields out ++ downloadField res)]
            None 0),
       statusLog a qm (sfn.DescribeExecutionInput.mk (executionArnOf a qm))
         out ++ tr ++ downloadWarning res,
       w2).

(** Every way [CheckHealth] can go. *)
Inductive healthRun (d : Datasource W) (w : W)
  : outcome (backend.CheckHealthResult.t * option error) * list event * W
    -> Prop :=
| healthRun_noBucket :
    models.S3Bucket (settings d) = "" ->
    healthRun d w
      (Returned (backend.CheckHealthResult.mk backend.HealthStatusError
                   "S3 Bucket name is missing", None), [], w)
| healthRun_noArn :
    models.S3Bucket (settings d) <> "" ->
    models.StepFunctionArn (settings d) = "" ->
    healthRun d w
      (Returned (backend.CheckHealthResult.mk backend.HealthStatusError
                   "Step Function ARN is missing", None), [], w)
| healthRun_noClient :
    models.S3Bucket (settings d) <> "" ->
    models.StepFunctionArn (settings d) <> "" ->
    sfnClient d = None ->
    healthRun d w
      (Returned (backend.CheckHealthResult.mk backend.HealthStatusOk
                   "Data source is working: S3 Bucket access is not being tested.",
                 None), [], w)
| healthRun_accessible c out w1 :
    models.S3Bucket (settings d) <> "" ->
    models.StepFunctionArn (settings d) <> "" ->
    sfnClient d = Some c ->
    DescribeStateMachine c
      (sfn.DescribeStateMachineInput.mk
         (models.StepFunctionArn (settings d))) w = (inl out, w1) ->
    healthRun d w
      (Returned (backend.CheckHealthResult.mk backend.HealthStatusOk
                   "Data source is working: Step Function is accessible,S3 Bucket access is not being tested.",
                 None),
       [DescribeStateMachineCall
          (sfn.DescribeStateMachineInput.mk
             (models.StepFunctionArn (settings d))) (inl out)],
       w1)
| healthRun_inaccessible c err w1 :
    models.S3Bucket (settings d) <> "" ->
    models.StepFunctionArn (settings d) <> "" ->
    sfnClient d = Some c ->
    DescribeStateMachine c
      (sfn.DescribeStateMachineInput.mk
         (models.StepFunctionArn (settings d))) w = (inr err, w1) ->
    healthRun d w
      (Returned (backend.CheckHealthResult.mk backend.HealthStatusError
                   ("Cannot access Step Function: " +:+ err), None),
       [DescribeStateMachineCall
          (sfn.DescribeStateMachineInput.mk
             (models.StepFunctionArn (settings d))) (inr err)],
       w1).

(** A response as every handler shapes it: an error with status 400 and no
    frame, or no error and one frame that starts with the status field. *)
Definition wellShaped (resp : backend.DataResponse.t) : Prop :=
  (exists msg,
      resp = backend.ErrDataResponse backend.StatusBadRequest msg) \/
  (exists frame value rest,
      resp = backend.DataResponse.mk [frame] None 0 /\
      data.Frame.Fields frame =
        data.Field.mk "status" None [value] :: rest).

End Runs.

(** The RefIDs of a request, as a set. *)
Definition refIDs (queries : list backend.DataQuery.t) : gset string :=
  list_to_set (backend.DataQuery.RefID <$> queries).

(** * The panel (src/panel/components/Download.tsx)

    The parts of the download panel that compute: the grouping of packet
    numbers by source file, the check for the two required columns, the
    reading of a query response, the reaction to a status and the button.
    Timers, rendering and the HTTP calls themselves are left out. *)

Module Panel.

(** ** Grouping packet numbers by source file

    The loop of [transformExtractData] (in [handleDownload] of the other
    copy of the component).  Source files are strings and packet numbers
    integers, as the casts of the loop say; an index past the end of the
    packet column reads [undefined], which is [None] here.  The object
    that collects the groups is an object literal: a source file whose
    name resolves on [Object.prototype] finds a value there that is
    neither empty nor an array, and calling [includes] on it throws a
    TypeError.  Which names those are is a parameter. *)

Abbreviation Groups := (gmap string (list (option Z))).

(** [Array.prototype.includes] on numbers and undefined *)
Definition includes (l : list (option Z)) (x : option Z) : bool :=
  existsb (fun y => bool_decide (y = x)) l.

Section Grouping.

Variable inherited : string -> bool.

(** One turn of the loop; [None] is the TypeError. *)
Definition groupOne (extractData : Groups) (sourceFile : string)
  (packetNumber : option Z) : option Groups :=
  if inherited sourceFile then None
  else
    (* if (!extractData[sourceFile]) extractData[sourceFile] = [] *)
    let extractData :=
      match extractData !! sourceFile with
      | Some _ => extractData
      | None => <[sourceFile := []]> extractData
      end in
    (* if (!extractData[sourceFile].includes(packetNumber)) push *)
    let group := default [] (extractData !! sourceFile) in
    if includes group packetNumber then Some extractData
    else Some (<[sourceFile := group ++ [packetNumber]]> extractData).

(** [for (let i = 0; i < sourceFiles.length; i++)], from index [i] on,
    with [remaining] the source files from [i]. *)
Fixpoint groupFrom (i : nat) (remaining : list string)
  (packetNumbers : list Z) (extractData : Groups) : option Groups :=
  match remaining with
  | [] => Some extractData
  | sourceFile :: rest =>
      match groupOne extractData sourceFile (packetNumbers !! i) with
      | Some extractData' => groupFrom (S i) rest packetNumbers extractData'
      | None => None
      end
  end.

Definition groupPackets (sourceFiles : list string) (packetNumbers : list Z)
  : option Groups :=
  groupFrom 0 sourceFiles packetNumbers ∅.

End Grouping.

(** The list behind a key of the groups, empty when the key is not
    there. *)
Definition groupOf (groups : Groups) (sourceFile : string)
  : list (option Z) :=
  default [] (groups !! sourceFile).

(** Every group is free of duplicates and not empty. *)
Definition goodGroups (groups : Groups) : Prop :=
  forall sourceFile group,
    groups !! sourceFile = Some group -> NoDup group /\ group <> [].

(** ** The two required columns *)

Definition requiredFieldNames : list string :=
  ["source_file"; "source_packet_number"].

Definition includesName (l : list string) (x : string) : bool :=
  existsb (fun y => (y =? x)%string) l.

(** [missingFields] of [transformExtractData], from the names of the
    fields of the first series; [None] is a missing series or a series
    without fields. *)
Definition missingFields (fieldNames : option (list string)) : list string :=
  let extractedFields :=
    match fieldNames with
    | Some names => List.filter (includesName requiredFieldNames) names
    | None => []
    end in
  List.filter (fun required => negb (includesName extractedFields required))
              requiredFieldNames.

(** ** Reading a query response

    The JSON of a query response as far as [extractFieldValues]
    ([parseResponse] in the other copy) reads it, every level of which may
    be missing; the cells are strings, as in the frames of the backend. *)

Module FieldSchema.
Record t : Type := mk { name : option string }.
End FieldSchema.

Module Schema.
Record t : Type := mk { fields : option (list FieldSchema.t) }.
End Schema.

Module Data.
Record t : Type := mk { values : option (list (list string)) }.
End Data.

Module Frame.
Record t : Type := mk { schema : option Schema.t; data : option Data.t }.
End Frame.

Module Result.
Record t : Type := mk { frames : option (list Frame.t) }.
End Result.

Module Response.
Record t : Type := mk { results : option (gmap string Result.t) }.
End Response.

(** The body of the [forEach]: a field with a name that is not blank and
    a column that is there and not empty sets the name to the first cell
    of the column. *)
Definition setField (values : list (list string)) (index : nat)
  (field : FieldSchema.t) (fieldValues : gmap string string)
  : gmap string string :=
  match FieldSchema.name field, values !! index with
  | Some name, Some (first :: _) =>
      if (name =? "")%string then fieldValues
      else <[name := first]> fieldValues
  | _, _ => fieldValues
  end.

Fixpoint forEachField (index : nat) (fields : list FieldSchema.t)
  (values : list (list string)) (fieldValues : gmap string string)
  : gmap string string :=
  match fields with
  | [] => fieldValues
  | field :: rest =>
      forEachField (S index) rest values
        (setField values index field fieldValues)
  end.

(** The field at [index] sets [name] to [value]. *)
Definition reads (values : list (list string)) (index : nat)
  (field : FieldSchema.t) (name value : string) : Prop :=
  FieldSchema.name field = Some name /\ name <> "" /\
  exists rest, values !! index = Some (value :: rest).

Definition extractFieldValues (response : option Response.t)
  : gmap string string :=
  let fieldValues : gmap string string := ∅ in
  match response with
  | None => fieldValues
  | Some response =>
      match Response.results response with
      | None => fieldValues
      | Some results =>
          match results !! "pcap-extract" with
          | None => fieldValues
          | Some pcapResult =>
              match Result.frames pcapResult with
              | None | Some [] => fieldValues
              | Some (frame :: _) =>
                  match Frame.data frame, Frame.schema frame with
                  | Some data, Some schema =>
                      match Data.values data, Schema.fields schema with
                      | Some values, Some fields =>
                          forEachField 0 fields values fieldValues
                      | _, _ => fieldValues
                      end
                  | _, _ => fieldValues
                  end
              end
          end
      end
  end.

(** ** The reaction to a status response

    What [pollJobStatus] of Download.tsx does once the response is read,
    as a step on the state of the component: the download state, the error
    shown, whether the polling timer is set, and the URLs handed to the
    browser for download so far. *)

Inductive DownloadState : Type := idle | processing | downloaded | error.

Module State.
Record t : Type := mk {
  downloadState : DownloadState;
  error : option string;
  polling : bool;
  triggered : list string
}.
End State.

Definition newline : string := String "010" EmptyString.

(** [clearInterval] and the reset of the reference *)
Definition stopPolling (st : State.t) : State.t :=
  State.mk (State.downloadState st) (State.error st) false
           (State.triggered st).

Definition setError (message : string) (st : State.t) : State.t :=
  State.mk (State.downloadState st) (Some message) (State.polling st)
           (State.triggered st).

Definition setDownloadState (s : DownloadState) (st : State.t) : State.t :=
  State.mk s (State.error st) (State.polling st) (State.triggered st).

(** The click on a link to [downloadUrl], when there is a URL *)
Definition triggerDownload (downloadUrl : option string) (st : State.t)
  : State.t :=
  match downloadUrl with
  | Some url =>
      if (url =? "")%string then st
      else State.mk (State.downloadState st) (State.error st)
                    (State.polling st) (State.triggered st ++ [url])
  | None => st
  end.

(** The text [JSON.stringify] gives for the [Error] thrown when the
    response holds no status: an [Error] has no enumerable property. *)
Definition stringifiedError : string := "{}".

Definition onStatusResponse (responseData : gmap string string)
  (st : State.t) : State.t :=
  (* const status = responseData.get('status') || null *)
  let status :=
    match responseData !! "status" with
    | Some s => if (s =? "")%string then None else Some s
    | None => None
    end in
  match status with
  | Some status =>
      if (status =? "RUNNING")%string then st
      else if (status =? "SUCCEEDED")%string then
        let st := stopPolling st in
        let downloadUrl := responseData !! "download_url" in
        let st := triggerDownload downloadUrl st in
        setDownloadState downloaded st
      else
        let st := stopPolling st in
        let errorMessage := "Job failed with status: " +:+ status in
        let errorMessage :=
          match responseData !! "error" with
          | Some e => errorMessage +:+ newline +:+ "Error: " +:+ e
          | None => errorMessage
          end in
        let errorMessage :=
          match responseData !! "cause" with
          | Some c => errorMessage +:+ newline +:+ "Cause: " +:+ c
          | None => errorMessage
          end in
        setError errorMessage st
  | None =>
      (* the Error thrown here is caught just below *)
      let st := setError ("Failed to poll status: " +:+ stringifiedError) st in
      stopPolling st
  end.

(** ** The button *)

Module ButtonProps.
Record t : Type := mk {
  text : string;
  icon : option string;
  variant : string;
  disabled : bool
}.
End ButtonProps.

(** [isConfigured] is whether a data source is chosen in the options,
    [hasData] whether the panel has a series, [isDataLoading] whether the
    panel data is loading; [text] is the button text of the options. *)
Definition getButtonProps (downloadState : DownloadState)
  (text : option string) (isConfigured hasData isDataLoading : bool)
  : ButtonProps.t :=
  let label :=
    match text with
    | Some t => if (t =? "")%string then "Download PCAP" else t
    | None => "Download PCAP"
    end in
  match downloadState with
  | processing => ButtonProps.mk "Processing" None "primary" true
  | downloaded => ButtonProps.mk "Downloaded" (Some "check") "success" true
  | error =>
      ButtonProps.mk label (Some "download-alt") "primary"
        (negb isConfigured || negb hasData || isDataLoading)
  | idle =>
      ButtonProps.mk label (Some "download-alt") "primary"
        (negb isConfigured || negb hasData || isDataLoading)
  end.

End Panel.

(** * The query filter of the datasource frontend *)

Module Frontend.

(** The fields of [MyQuery] that [filterQuery] reads; all are optional. *)
Module MyQuery.
Record t : Type := mk {
  action : option string;
  JobId : option string;
  Bucket : option string;
  Extract : option ExtractMap;
  executionArn : option string
}.
End MyQuery.

(** A string is truthy when it is there and not empty. *)
Definition truthy (s : option string) : bool :=
  match s with
  | Some s => negb (s =? "")%string
  | None => false
  end.

Definition filterQuery (query : MyQuery.t) : bool :=
  (* const action = query.action || 'request' *)
  let action :=
    match MyQuery.action query with
    | Some a => if (a =? "")%string then "request" else a
    | None => "request"
    end in
  if (action =? "request")%string then
    truthy (MyQuery.JobId query) && truthy (MyQuery.Bucket query) &&
    match MyQuery.Extract query with
    | Some extract => (0 <? size extract)%nat
    | None => false
    end
  else if (action =? "status")%string then
    truthy (MyQuery.executionArn query)
  else false.

End Frontend.

(** ** More concrete inputs *)

Module MoreExamples.
Import Fixtures Examples.

Definition dsStartFailing : Datasource nat :=
  mkDatasource nat testSettings
    (Some (mockSFN (inr "execution failed") (inl succeededPlain) machineOk))
    None.

Definition dsDescribeFailing : Datasource nat :=
  mkDatasource nat testSettings
    (Some (mockSFN startedOk (inr "execution not found") machineOk))
    (Some (mockPresigner presignOk)).

(** A datasource configured with the ARN of an activity. *)
Definition dsActivityArn : Datasource nat :=
  mkDatasource nat
    (models.mkPluginSettings
       "arn:aws:states:us-east-1:123456789012:activity:my-activity"
       "test-bucket")
    (Some (mockSFN startedOk (inl succeededPlain) machineOk)) None.

Definition qmNoExtract : queryModel :=
  mkQueryModel "request" "test-job-123" ∅.

Definition statusQuery : backend.DataQuery.t :=
  backend.DataQuery.mk "B" (encodeQuery "status" "test-job-123").

(** A second query under the RefID of [bogusQuery]. *)
Definition otherQuery : backend.DataQuery.t :=
  backend.DataQuery.mk "A" (encodeQuery "other" "job-2").

Definition brokenQuery : backend.DataQuery.t :=
  backend.DataQuery.mk "C" "not json".

Definition unknownAction (action : string) : backend.DataResponse.t :=
  backend.ErrDataResponse backend.StatusBadRequest
    ("unknown action: '" +:+ action +:+ "'").

(** The property names of [Object.prototype]. *)
Definition objectPrototypeNames : list string :=
  ["constructor"; "__defineGetter__"; "__defineSetter__"; "hasOwnProperty";
   "__lookupGetter__"; "__lookupSetter__"; "isPrototypeOf";
   "propertyIsEnumerable"; "toString"; "valueOf"; "__proto__";
   "toLocaleString"].

Definition onPrototype (name : string) : bool :=
  Panel.includesName objectPrototypeNames name.

Definition sourceFiles : list string :=
  ["a.pcap"; "b.pcap"; "a.pcap"; "a.pcap"].

Definition packetNumbers : list Z := [1; 2; 1; 3].

Definition groups : Panel.Groups :=
  {[ "a.pcap" := [Some 1; Some 3]; "b.pcap" := [Some 2] ]}.

(** The frame of a failed execution as the panel receives it. *)
Definition failedFields : list Panel.FieldSchema.t :=
  [Panel.FieldSchema.mk (Some "status");
   Panel.FieldSchema.mk (Some "error");
   Panel.FieldSchema.mk (Some "cause")].

Definition failedValues : list (list string) :=
  [["FAILED"]; ["Task failed"]; ["Network timeout"]].

Definition failedResults : gmap string Panel.Result.t :=
  {[ "pcap-extract" :=
       Panel.Result.mk
         (Some [Panel.Frame.mk
                  (Some (Panel.Schema.mk (Some failedFields)))
                  (Some (Panel.Data.mk (Some failedValues)))]) ]}.

Definition failedData : gmap string string :=
  {[ "status" := "FAILED"; "error" := "Task failed";
     "cause" := "Network timeout" ]}.

Definition polling : Panel.State.t :=
  Panel.State.mk Panel.processing None true [].

Definition filteredQuery : Frontend.MyQuery.t :=
  Frontend.MyQuery.mk (Some "request") (Some "test-job-123")
    (Some "test-bucket") (Some {[ "file1.pcap" := [1; 2; 3] ]}) None.

End MoreExamples.

(** * Properties *)

Section Properties.

Context {W : Type} {libs : GoLibraries}.

(** Membership in a list of events written out: all the alternatives that
    are not the same kind of event are dropped. *)
Ltac pick_event H :=
  repeat (destruct H as [H|H]; [try discriminate H|]);
  try (exfalso; exact H).

(** ** Strings *)

Lemma prefix_append (a b : string) : String.prefix a (a +:+ b) = true.
Proof.
  induction a as [|c a IH].
  - now destruct b.
  - change (String c a +:+ b) with (String c (a +:+ b)). simpl.
    destruct (ascii_dec c c); [exact IH | congruence].
Qed.

Lemma strings_Contains_prefix (s sub : string) :
  String.prefix sub s = true -> strings_Contains s sub = true.
Proof. intros Hp. destruct s; simpl in *; rewrite Hp; reflexivity. Qed.

Lemma strings_Contains_middle (pre sub post : string) :
  strings_Contains (pre +:+ sub +:+ post) sub = true.
Proof.
  induction pre as [|c pre IH].
  - change ("" +:+ sub +:+ post) with (sub +:+ post).
    apply strings_Contains_prefix, prefix_append.
  - change (String c pre +:+ sub +:+ post)
      with (String c (pre +:+ sub +:+ post)).
    simpl. rewrite IH. apply orb_true_r.
Qed.

Lemma eqb_blank (s : string) : s <> "" -> (s =? "")%string = false.
Proof. intros Hs. now apply String.eqb_neq. Qed.

Lemma size_eqb_nonempty (m : ExtractMap) :
  size m <> 0%nat -> (size m =? 0)%nat = false.
Proof. intros Hm. now apply Nat.eqb_neq. Qed.

(** ** The helpers *)

Lemma generatePresignedURL_run (d : Datasource W) (bucket key : string)
    (w : W) :
  presignRun d bucket key w (generatePresignedURL d bucket key w).
Proof.
  unfold generatePresignedURL.
  destruct (s3Presigner d) as [p|] eqn:Ep.
  - unfold bind, callPresignGetObject.
    destruct (PresignGetObject p _ _ w) as [[request|err] w1] eqn:Ec.
    + eapply presignRun_ok; eassumption.
    + eapply presignRun_err; eassumption.
  - now apply presignRun_nil.
Qed.

(** A run of the status handler in which describe-execution answered:
    the whole run is determined by the answer and by the download step. *)
Lemma handleStatusAction_described (d : Datasource W) (qm : queryModel)
    (w : W) (i : sfn.DescribeExecutionInput.t)
    (out : sfn.DescribeExecutionOutput.t) :
  In (DescribeExecutionCall i (inl out))
     (eventsOf (handleStatusAction d qm w)) ->
  exists a w1,
    arn_Parse (models.StepFunctionArn (settings d)) = inl a /\
    i = sfn.DescribeExecutionInput.mk (executionArnOf a qm) /\
    if (sfn.DescribeExecutionOutput.Status out =? "SUCCEEDED")%string then
      exists res tr w2,
        presignRun d (models.S3Bucket (settings d)) (JobId qm +:+ ".pcapng")
          w1 (Returned res, tr, w2) /\
        handleStatusAction d qm w =
          (Returned
             (backend.DataResponse.mk
                [data.Frame.mk "step_function_status"
                   (reportedFields out ++
                    match res with
                    | inl url => [data.Field.mk "download_url" None [url]]
                    | inr _ => []
                    end)]
                None 0),
           statusLog a qm i out ++ tr ++
           match res with
           | inl _ => []
           | inr err =>
               [LogCall backend.Warn
                  "Failed to generate presigned URL for completed execution"
                  [LString "error"; LError err]]
           end,
           w2)
    else
      handleStatusAction d qm w =
        (Returned
           (backend.DataResponse.mk
              [data.Frame.mk "step_function_status" (reportedFields out)]
              None 0),
         statusLog a qm i out, w1).
Proof.
  unfold handleStatusAction, eventsOf.
  destruct (JobId qm =? "")%string; [intros []|].
  destruct (arn_Parse _) as [a|err];
    [|cbn; intros Hin; pick_event Hin].
  fold (executionArnOf a qm).
  cbv [bind ret Logger.Info Logger.Error Logger.Warn Logger.log
       callDescribeExecution].
  destruct (sfnClient d) as [c|];
    [|cbn; intros Hin; pick_event Hin].
  destruct (DescribeExecution c _ w) as [[o|err] w1] eqn:Ec;
    [|cbn; intros Hin; pick_event Hin].
  intros Hin. exists a, w1.
  assert (Hio : i = sfn.DescribeExecutionInput.mk (executionArnOf a qm) /\
                out = o).
  { revert Hin.
    destruct (sfn.DescribeExecutionOutput.Status o =? "SUCCEEDED")%string.
    - pose proof (generatePresignedURL_run d (models.S3Bucket (settings d))
                    (JobId qm +:+ ".pcapng") w1) as Hp.
      destruct (generatePresignedURL d _ _ w1) as [[og trg] wg].
      inversion Hp; subst; cbn;
        intros [Hin|[Hin|[Hin|Hin]]]; try discriminate Hin;
        try (injection Hin as -> ->; auto); pick_event Hin.
    - cbn. intros [Hin|[Hin|[Hin|Hin]]]; try discriminate Hin;
        try (injection Hin as -> ->; auto); pick_event Hin. }
  destruct Hio as [-> ->]. clear Hin.
  split; [reflexivity|]. split; [reflexivity|].
  unfold reportedFields, statusLog.
  destruct (sfn.DescribeExecutionOutput.Status o =? "SUCCEEDED")%string.
  - pose proof (generatePresignedURL_run d (models.S3Bucket (settings d))
                  (JobId qm +:+ ".pcapng") w1) as Hp.
    destruct (generatePresignedURL d _ _ w1) as [[og trg] wg].
    inversion Hp; subst;
      (eexists _, _, _; split; [eassumption|]);
      destruct (sfn.DescribeExecutionOutput.Status o =? "FAILED")%string,
               (sfn.DescribeExecutionOutput.Error o),
               (sfn.DescribeExecutionOutput.Cause o); reflexivity.
  - destruct (sfn.DescribeExecutionOutput.Status o =? "FAILED")%string,
             (sfn.DescribeExecutionOutput.Error o),
             (sfn.DescribeExecutionOutput.Cause o); reflexivity.
Qed.

(** The fields reported for an execution that succeeded. *)
Lemma reportedFields_succeeded (out : sfn.DescribeExecutionOutput.t) :
  sfn.DescribeExecutionOutput.Status out = "SUCCEEDED" ->
  reportedFields out =
    data.Field.mk "status" None ["SUCCEEDED"] ::
    match sfn.DescribeExecutionOutput.Cause out with
    | Some c => [data.Field.mk "cause" None [c]]
    | None => []
    end.
Proof. intros Hs. unfold reportedFields. rewrite Hs. reflexivity. Qed.

(** ** C1 *)

(** C1 (as amended): in a status run whose describe-execution result has
    status SUCCEEDED, the response holds one frame; the frame has a
    download_url field exactly when presigned-URL generation succeeded, it
    never has an error field, and it has a cause field exactly when the
    engine's result carries a cause string. *)
Theorem status_succeeded_fields (d : Datasource W) (qm : queryModel) (w : W)
    (i : sfn.DescribeExecutionInput.t)
    (out : sfn.DescribeExecutionOutput.t) :
  In (DescribeExecutionCall i (inl out))
     (eventsOf (handleStatusAction d qm w)) ->
  sfn.DescribeExecutionOutput.Status out = "SUCCEEDED" ->
  exists frame,
    outcomeOf (handleStatusAction d qm w) =
      Returned (backend.DataResponse.mk [frame] None 0) /\
    (hasField "download_url" frame = true <->
     presignSucceeded (eventsOf (handleStatusAction d qm w))) /\
    hasField "error" frame = false /\
    (hasField "cause" frame = true <->
     sfn.DescribeExecutionOutput.Cause out <> None).
Proof.
  intros Hin Hs.
  destruct (handleStatusAction_described d qm w i out Hin)
    as (a & w1 & _ & _ & Hrun).
  replace (sfn.DescribeExecutionOutput.Status out =? "SUCCEEDED")%string
    with true in Hrun by (rewrite Hs; reflexivity).
  destruct Hrun as (res & tr & w2 & Hp & Hrun).
  rewrite (reportedFields_succeeded out Hs) in Hrun.
  rewrite Hrun. unfold outcomeOf, eventsOf, presignSucceeded. cbn.
  eexists. split; [reflexivity|].
  unfold hasField, statusLog.
  inversion Hp; subst; destruct (sfn.DescribeExecutionOutput.Cause out);
    cbn; repeat split; try congruence; try discriminate;
    try (intros (gi & fns & req & Hev); pick_event Hev);
    try (intros _; eexists _, _, _; do 4 right; left; reflexivity).
Qed.

(** ** C2 *)

(** C2: in a status run whose describe-execution result has status
    SUCCEEDED and whose presigned-URL generation returned an error, the
    handler still returns a response without an error; its frame has the
    status field and no download_url field. *)
Theorem presign_failure_not_surfaced (d : Datasource W) (qm : queryModel)
    (w : W) (i : sfn.DescribeExecutionInput.t)
    (out : sfn.DescribeExecutionOutput.t) :
  In (DescribeExecutionCall i (inl out))
     (eventsOf (handleStatusAction d qm w)) ->
  sfn.DescribeExecutionOutput.Status out = "SUCCEEDED" ->
  presignFailed d (eventsOf (handleStatusAction d qm w)) ->
  exists resp frame,
    outcomeOf (handleStatusAction d qm w) = Returned resp /\
    backend.DataResponse.Error resp = None /\
    backend.DataResponse.Frames resp = [frame] /\
    nth_error (data.Frame.Fields frame) 0 =
      Some (data.Field.mk "status" None ["SUCCEEDED"]) /\
    hasField "status" frame = true /\
    hasField "download_url" frame = false.
Proof.
  intros Hin Hs Hfail.
  destruct (handleStatusAction_described d qm w i out Hin)
    as (a & w1 & _ & _ & Hrun).
  replace (sfn.DescribeExecutionOutput.Status out =? "SUCCEEDED")%string
    with true in Hrun by (rewrite Hs; reflexivity).
  destruct Hrun as (res & tr & w2 & Hp & Hrun).
  rewrite (reportedFields_succeeded out Hs) in Hrun.
  rewrite Hrun in Hfail |- *. unfold outcomeOf, eventsOf in *.
  cbn [fst snd] in *. unfold hasField, statusLog in *.
  inversion Hp as [Hnil | p request w' Hsome Hcall
                        | p err w' Hsome Hcall]; subst.
  - destruct (sfn.DescribeExecutionOutput.Cause out);
      eexists _, _; cbn; repeat split; reflexivity.
  - exfalso.
    destruct Hfail as [Hnil | (gi & fns & err' & Hev)]; [congruence|].
    cbn in Hev. pick_event Hev.
  - destruct (sfn.DescribeExecutionOutput.Cause out);
      eexists _, _; cbn; repeat split; reflexivity.
Qed.

(** ** C3 *)

(** C3 (as amended): with a blank job id the status handler returns the
    bad-request error that names JobId; the request handler returns its
    own JobId error for every non-empty Extract map, and for an empty
    Extract map it returns the bad-request error about Extract, which is
    checked first.  None of these runs calls a client or logs. *)
Theorem blank_job_id_rejected (d : Datasource W) (qm : queryModel) (w : W) :
  JobId qm = "" ->
  handleStatusAction d qm w =
    (Returned (backend.ErrDataResponse backend.StatusBadRequest
                 "JobId is required for status action"), [], w) /\
  strings_Contains "JobId is required for status action" "JobId" = true /\
  (size (Extract qm) <> 0%nat ->
   handleRequestAction d qm w =
     (Returned (backend.ErrDataResponse backend.StatusBadRequest
                  "JobId is required for request action"), [], w)) /\
  strings_Contains "JobId is required for request action" "JobId" = true /\
  (size (Extract qm) = 0%nat ->
   handleRequestAction d qm w =
     (Returned (backend.ErrDataResponse backend.StatusBadRequest
                  "Extract parameter is required for request action"),
      [], w)).
Proof.
  intros Hj. unfold handleStatusAction, handleRequestAction.
  rewrite Hj. cbn [String.eqb].
  repeat split.
  - intros Hne. rewrite (size_eqb_nonempty _ Hne). reflexivity.
  - intros He. rewrite He. reflexivity.
Qed.

(** ** C4 *)

(** C4: in a request run with a non-blank job id and a non-empty
    extraction map in which start-execution succeeded, the handler returns
    a response with exactly one frame whose fields are exactly status,
    holding the one value RUNNING, and job_id, holding the job id of the
    query. *)
Theorem request_started_response (d : Datasource W) (qm : queryModel) (w : W)
    (i : sfn.StartExecutionInput.t) (out : sfn.StartExecutionOutput.t) :
  JobId qm <> "" ->
  size (Extract qm) <> 0%nat ->
  In (StartExecutionCall i (inl out))
     (eventsOf (handleRequestAction d qm w)) ->
  outcomeOf (handleRequestAction d qm w) =
    Returned
      (backend.DataResponse.mk
         [data.Frame.mk "step_function_request"
            [data.Field.mk "status" None ["RUNNING"];
             data.Field.mk "job_id" None [JobId qm]]]
         None 0).
Proof.
  intros Hj He. unfold handleRequestAction, executeStepFunction.
  rewrite (size_eqb_nonempty _ He), (eqb_blank _ Hj).
  unfold eventsOf, outcomeOf.
  cbv [bind ret Logger.Info Logger.Error Logger.Debug Logger.log
       callStartExecution].
  destruct (json_Marshal _) as [s|err];
    [|cbn; intros Hin; pick_event Hin].
  destruct (sfnClient d) as [c|];
    [|cbn; intros Hin; pick_event Hin].
  destruct (StartExecution c _ w) as [[o|err] w1];
    cbn; intros Hin; [reflexivity | pick_event Hin].
Qed.

(** ** C5 *)

(** C5: in a status run whose describe-execution result has status FAILED
    with an error string and a cause string, the frame's fields are, in
    this order, status, error and cause, each with the engine's value. *)
Theorem failed_fields_in_order (d : Datasource W) (qm : queryModel) (w : W)
    (i : sfn.DescribeExecutionInput.t)
    (out : sfn.DescribeExecutionOutput.t) (e c : string) :
  In (DescribeExecutionCall i (inl out))
     (eventsOf (handleStatusAction d qm w)) ->
  sfn.DescribeExecutionOutput.Status out = "FAILED" ->
  sfn.DescribeExecutionOutput.Error out = Some e ->
  sfn.DescribeExecutionOutput.Cause out = Some c ->
  outcomeOf (handleStatusAction d qm w) =
    Returned
      (backend.DataResponse.mk
         [data.Frame.mk "step_function_status"
            [data.Field.mk "status" None ["FAILED"];
             data.Field.mk "error" None [e];
             data.Field.mk "cause" None [c]]]
         None 0).
Proof.
  intros Hin Hs He Hc.
  destruct (handleStatusAction_described d qm w i out Hin)
    as (a & w1 & _ & _ & Hrun).
  replace (sfn.DescribeExecutionOutput.Status out =? "SUCCEEDED")%string
    with false in Hrun by (rewrite Hs; reflexivity).
  rewrite Hrun. unfold outcomeOf, reportedFields.
  rewrite Hs, He, Hc. reflexivity.
Qed.

(** ** C6 *)

(** C6: for a status query with a non-blank job id, when the configured
    Step Function ARN does not parse the handler returns a bad-request
    error and the run holds no describe-execution call (indeed no call to
    any client, whose state is unchanged). *)
Theorem malformed_arn_stops_before_describe (d : Datasource W)
    (qm : queryModel) (w : W) (err : error) :
  JobId qm <> "" ->
  arn_Parse (models.StepFunctionArn (settings d)) = inr err ->
  outcomeOf (handleStatusAction d qm w) =
    Returned (backend.ErrDataResponse backend.StatusBadRequest
                ("Failed to parse Step Function ARN: " +:+ err)) /\
  describeExecutionCalls (eventsOf (handleStatusAction d qm w)) = [] /\
  clientCalls (eventsOf (handleStatusAction d qm w)) = [] /\
  stateOf (handleStatusAction d qm w) = w.
Proof.
  intros Hj Hp. unfold handleStatusAction.
  rewrite (eqb_blank _ Hj), Hp. repeat split.
Qed.

(** ** C7 *)

(** C7: with a blank S3 bucket name the health check answers with status
    error and the message about the bucket, whatever the Step Function ARN
    is (blank included): the bucket is looked at first.  No client is
    called. *)
Theorem blank_bucket_is_reported_first (d : Datasource W)
    (req : backend.CheckHealthRequest.t) (w : W) :
  models.S3Bucket (settings d) = "" ->
  CheckHealth d req w =
    (Returned
       (backend.CheckHealthResult.mk backend.HealthStatusError
          "S3 Bucket name is missing", None), [], w).
Proof. intros Hb. unfold CheckHealth. rewrite Hb. reflexivity. Qed.

(** ** C8 *)

(** C8: for a request query with a non-blank job id and a non-empty
    extraction map, on a datasource that has its Step Functions client,
    the run holds exactly one start-execution call; its name is the job
    id, its state machine ARN the configured one, and its input the JSON
    text of the object made of the job id, the configured bucket and the
    extraction map. *)
Theorem request_starts_one_execution (d : Datasource W) (qm : queryModel)
    (w : W) (c : SFNClientInterface W) (inputJSON : string) :
  JobId qm <> "" ->
  size (Extract qm) <> 0%nat ->
  sfnClient d = Some c ->
  json_Marshal
    (StepFunctionInput.mk (JobId qm) (models.S3Bucket (settings d))
                          (Extract qm)) = inl inputJSON ->
  startExecutionCalls (eventsOf (handleRequestAction d qm w)) =
    [sfn.StartExecutionInput.mk (JobId qm)
       (models.StepFunctionArn (settings d)) inputJSON].
Proof.
  intros Hj He Hc Hm. unfold handleRequestAction, executeStepFunction.
  rewrite (size_eqb_nonempty _ He), (eqb_blank _ Hj), Hm, Hc.
  unfold eventsOf.
  cbv [bind ret Logger.Info Logger.Error Logger.Debug Logger.log
       callStartExecution].
  destruct (StartExecution c _ w) as [[o|err] w1]; reflexivity.
Qed.

(** ** C9 *)

(** C9: in a status run whose describe-execution result has status
    SUCCEEDED, every presign-get-object call is for the configured bucket
    and the key made of the job id followed by .pcapng, and its options
    set the expiry to one hour whatever they start from; there is one such
    call when the datasource has a presigner and none otherwise. *)
Theorem presign_request_parameters (d : Datasource W) (qm : queryModel)
    (w : W) (i : sfn.DescribeExecutionInput.t)
    (out : sfn.DescribeExecutionOutput.t) :
  In (DescribeExecutionCall i (inl out))
     (eventsOf (handleStatusAction d qm w)) ->
  sfn.DescribeExecutionOutput.Status out = "SUCCEEDED" ->
  (forall gi fns r,
      In (PresignGetObjectCall gi fns r)
         (eventsOf (handleStatusAction d qm w)) ->
      s3.GetObjectInput.Bucket gi = models.S3Bucket (settings d) /\
      s3.GetObjectInput.Key gi = JobId qm +:+ ".pcapng" /\
      forall opts,
        s3.PresignOptions.Expires (s3.applyOptFns fns opts) =
          3600 * time.Second) /\
  length (presignCalls (eventsOf (handleStatusAction d qm w))) =
    match s3Presigner d with Some _ => 1%nat | None => 0%nat end.
Proof.
  intros Hin Hs.
  destruct (handleStatusAction_described d qm w i out Hin)
    as (a & w1 & _ & _ & Hrun).
  replace (sfn.DescribeExecutionOutput.Status out =? "SUCCEEDED")%string
    with true in Hrun by (rewrite Hs; reflexivity).
  destruct Hrun as (res & tr & w2 & Hp & Hrun).
  rewrite Hrun. unfold eventsOf, statusLog. cbn.
  inversion Hp as [Hnil | p request w' Hsome Hcall
                        | p err w' Hsome Hcall]; subst;
    rewrite ?Hnil, ?Hsome; (split; [|reflexivity]);
    intros gi fns r Hev; cbn in Hev; pick_event Hev;
    try (injection Hev as <- <- _; repeat split).
Qed.

(** ** C10 *)

(** C10 (as amended): when both plugin settings are set and the payload
    decodes to a query whose action is neither request nor status, the
    dispatcher returns a bad-request error whose message holds the action,
    and the run is empty: no handler ran, no client was called. *)
Theorem unknown_action_rejected (d : Datasource W)
    (pCtx : backend.PluginContext) (q : backend.DataQuery.t)
    (qm : queryModel) (w : W) :
  models.StepFunctionArn (settings d) <> "" ->
  models.S3Bucket (settings d) <> "" ->
  json_Unmarshal (backend.DataQuery.JSON q) = inl qm ->
  Action qm <> "request" ->
  Action qm <> "status" ->
  query d pCtx q w =
    (Returned (backend.ErrDataResponse backend.StatusBadRequest
                 ("unknown action: '" +:+ Action qm +:+ "'")), [], w) /\
  strings_Contains ("unknown action: '" +:+ Action qm +:+ "'") (Action qm)
    = true.
Proof.
  intros Ha Hb Hq Hr Hs. unfold query, validateSettings.
  rewrite (eqb_blank _ Ha), (eqb_blank _ Hb), Hq.
  apply String.eqb_neq in Hr, Hs. rewrite Hr, Hs.
  split; [reflexivity | apply strings_Contains_middle].
Qed.

End Properties.

(** * The statements on concrete runs *)

Import Fixtures Examples.

#[local] Existing Instance Fixtures.libraries.

(** ** C1 *)

(** An execution that succeeded and carries a cause: the frame has the
    fields status, cause and download_url. *)
Lemma status_succeeded_fields_witness :
  exists frame,
    outcomeOf (handleStatusAction (dsDescribing succeededWithCause presignOk)
                 qmStatus 0%nat) =
      Returned (backend.DataResponse.mk [frame] None 0) /\
    (hasField "download_url" frame = true <->
     presignSucceeded
       (eventsOf (handleStatusAction
                    (dsDescribing succeededWithCause presignOk)
                    qmStatus 0%nat))) /\
    hasField "error" frame = false /\
    (hasField "cause" frame = true <->
     sfn.DescribeExecutionOutput.Cause succeededWithCause <> None).
Proof.
  apply (status_succeeded_fields
           (dsDescribing succeededWithCause presignOk) qmStatus 0%nat
           describeInput succeededWithCause).
  - vm_compute. do 2 right. left. reflexivity.
  - reflexivity.
Defined.

(** C1 as stated fails: the engine answers SUCCEEDED together with a cause
    string, and the frame of the response has a cause field. *)
Lemma succeeded_with_cause_has_cause_field :
  let run :=
    handleStatusAction (dsDescribing succeededWithCause presignOk)
      qmStatus 0%nat in
  In (DescribeExecutionCall describeInput (inl succeededWithCause))
     (eventsOf run) /\
  sfn.DescribeExecutionOutput.Status succeededWithCause = "SUCCEEDED" /\
  exists frame,
    outcomeOf run = Returned (backend.DataResponse.mk [frame] None 0) /\
    fieldNames frame = ["status"; "cause"; "download_url"] /\
    hasField "cause" frame = true.
Proof.
  cbv zeta. split; [|split].
  - vm_compute. do 2 right. left. reflexivity.
  - reflexivity.
  - eexists. split; [vm_compute; reflexivity|]. split; reflexivity.
Qed.

(** ** C2 *)

Lemma presign_failure_not_surfaced_witness :
  exists resp frame,
    outcomeOf (handleStatusAction
                 (dsDescribing succeededPlain (inr "AccessDenied"))
                 qmStatus 0%nat) = Returned resp /\
    backend.DataResponse.Error resp = None /\
    backend.DataResponse.Frames resp = [frame] /\
    nth_error (data.Frame.Fields frame) 0 =
      Some (data.Field.mk "status" None ["SUCCEEDED"]) /\
    hasField "status" frame = true /\
    hasField "download_url" frame = false.
Proof.
  apply (presign_failure_not_surfaced
           (dsDescribing succeededPlain (inr "AccessDenied")) qmStatus 0%nat
           describeInput succeededPlain).
  - vm_compute. do 2 right. left. reflexivity.
  - reflexivity.
  - right.
    exists (s3.GetObjectInput.mk "test-bucket" "test-job-123.pcapng"),
           hourOption, "AccessDenied".
    vm_compute. do 4 right. left. reflexivity.
Defined.

(** ** C3 *)

Lemma blank_job_id_rejected_witness :
  handleStatusAction dsStarting qmBlankStatus 0%nat =
    (Returned (backend.ErrDataResponse backend.StatusBadRequest
                 "JobId is required for status action"), [], 0%nat).
Proof.
  exact (proj1 (blank_job_id_rejected dsStarting qmBlankStatus 0%nat
                  eq_refl)).
Defined.

(** C3 as stated fails for the request handler: with a blank job id and an
    empty Extract map the error is the one about Extract, and its message
    does not name JobId. *)
Lemma blank_request_without_extract_names_extract :
  JobId qmBlankRequest = "" /\
  outcomeOf (handleRequestAction dsStarting qmBlankRequest 0%nat) =
    Returned (backend.ErrDataResponse backend.StatusBadRequest
                "Extract parameter is required for request action") /\
  strings_Contains "Extract parameter is required for request action"
                   "JobId" = false.
Proof. split; [|split]; vm_compute; reflexivity. Qed.

(** ** C4 *)

Lemma request_started_response_witness :
  outcomeOf (handleRequestAction dsStarting qmRequest 0%nat) =
    Returned
      (backend.DataResponse.mk
         [data.Frame.mk "step_function_request"
            [data.Field.mk "status" None ["RUNNING"];
             data.Field.mk "job_id" None ["test-job-123"]]]
         None 0).
Proof.
  refine (request_started_response dsStarting qmRequest 0%nat startInput
            (sfn.StartExecutionOutput.mk
               "arn:aws:states:us-east-1:123456789012:execution:test-state-machine:test-job-123")
            _ _ _).
  - discriminate.
  - vm_compute. discriminate.
  - vm_compute. right. left. reflexivity.
Defined.

(** ** C5 *)

Lemma failed_fields_in_order_witness :
  outcomeOf (handleStatusAction (dsDescribing failedBoth presignOk)
               qmStatus 0%nat) =
    Returned
      (backend.DataResponse.mk
         [data.Frame.mk "step_function_status"
            [data.Field.mk "status" None ["FAILED"];
             data.Field.mk "error" None ["Task failed"];
             data.Field.mk "cause" None ["Network timeout"]]]
         None 0).
Proof.
  refine (failed_fields_in_order (dsDescribing failedBoth presignOk)
            qmStatus 0%nat describeInput failedBoth
            "Task failed" "Network timeout" _ eq_refl eq_refl eq_refl).
  vm_compute. do 2 right. left. reflexivity.
Defined.

(** ** C6 *)

Lemma malformed_arn_stops_before_describe_witness :
  outcomeOf (handleStatusAction dsInvalidArn qmStatus 0%nat) =
    Returned (backend.ErrDataResponse backend.StatusBadRequest
                ("Failed to parse Step Function ARN: " +:+
                 "arn: invalid prefix")) /\
  describeExecutionCalls (eventsOf (handleStatusAction dsInvalidArn
                                      qmStatus 0%nat)) = [] /\
  clientCalls (eventsOf (handleStatusAction dsInvalidArn qmStatus 0%nat))
    = [] /\
  stateOf (handleStatusAction dsInvalidArn qmStatus 0%nat) = 0%nat.
Proof.
  refine (malformed_arn_stops_before_describe dsInvalidArn qmStatus 0%nat
            "arn: invalid prefix" _ _).
  - discriminate.
  - vm_compute. reflexivity.
Defined.

(** ** C7 *)

(** Bucket and ARN both blank: the message is the one about the bucket. *)
Lemma blank_bucket_is_reported_first_witness :
  models.StepFunctionArn (settings dsBlank) = "" /\
  CheckHealth dsBlank healthRequest 0%nat =
    (Returned
       (backend.CheckHealthResult.mk backend.HealthStatusError
          "S3 Bucket name is missing", None), [], 0%nat).
Proof.
  split; [reflexivity|].
  exact (blank_bucket_is_reported_first dsBlank healthRequest 0%nat eq_refl).
Defined.

(** ** C8 *)

Lemma request_starts_one_execution_witness :
  startExecutionCalls (eventsOf (handleRequestAction dsStarting qmRequest
                                   0%nat)) =
    [startInput].
Proof.
  refine (request_starts_one_execution dsStarting qmRequest 0%nat
            (mockSFN startedOk (inl succeededPlain) machineOk)
            (sfn.StartExecutionInput.Input startInput) _ _ eq_refl _).
  - discriminate.
  - vm_compute. discriminate.
  - vm_compute. reflexivity.
Defined.

(** ** C9 *)

Lemma presign_request_parameters_witness :
  (forall gi fns r,
      In (PresignGetObjectCall gi fns r)
         (eventsOf (handleStatusAction (dsDescribing succeededPlain presignOk)
                      qmStatus 0%nat)) ->
      s3.GetObjectInput.Bucket gi = "test-bucket" /\
      s3.GetObjectInput.Key gi = "test-job-123" +:+ ".pcapng" /\
      forall opts,
        s3.PresignOptions.Expires (s3.applyOptFns fns opts) =
          3600 * time.Second) /\
  length (presignCalls
            (eventsOf (handleStatusAction
                         (dsDescribing succeededPlain presignOk)
                         qmStatus 0%nat))) = 1%nat.
Proof.
  refine (presign_request_parameters (dsDescribing succeededPlain presignOk)
            qmStatus 0%nat describeInput succeededPlain _ eq_refl).
  vm_compute. do 2 right. left. reflexivity.
Defined.

(** ** C10 *)

Lemma unknown_action_rejected_witness :
  query dsStarting pluginContext bogusQuery 0%nat =
    (Returned (backend.ErrDataResponse backend.StatusBadRequest
                 ("unknown action: '" +:+ "bogus" +:+ "'")), [], 0%nat) /\
  strings_Contains ("unknown action: '" +:+ "bogus" +:+ "'") "bogus" = true.
Proof.
  refine (unknown_action_rejected dsStarting pluginContext bogusQuery
            (mkQueryModel "bogus" "job-1" ∅) 0%nat _ _ _ _ _).
  - discriminate.
  - discriminate.
  - vm_compute. reflexivity.
  - discriminate.
  - discriminate.
Defined.

(** C10 as stated fails: the action of the query is bogus, but the Step
    Function ARN is not configured, and the error message is the one
    about the settings; it does not hold the action. *)
Lemma unknown_action_with_incomplete_settings :
  json_Unmarshal (backend.DataQuery.JSON bogusQuery) =
    inl (mkQueryModel "bogus" "job-1" ∅) /\
  query dsNoArn pluginContext bogusQuery 0%nat =
    (Returned (backend.ErrDataResponse backend.StatusBadRequest
                 "Incomplete plugin settings: Step Function ARN not configured"),
     [], 0%nat) /\
  strings_Contains
    "Incomplete plugin settings: Step Function ARN not configured"
    "bogus" = false.
Proof. split; [|split]; vm_compute; reflexivity. Qed.

(** * The expectations of the repository's tests, replayed *)

(** TestHandleStatusAction, "succeeded execution with presigned URL": the
    execution ARN handed to describe-execution and the two fields. *)
Example replay_status_succeeded :
  describeExecutionCalls
    (eventsOf (handleStatusAction (dsDescribing succeededPlain presignOk)
                 qmStatus 0%nat)) = [describeInput] /\
  outcomeOf (handleStatusAction (dsDescribing succeededPlain presignOk)
               qmStatus 0%nat) =
    Returned
      (backend.DataResponse.mk
         [data.Frame.mk "step_function_status"
            [data.Field.mk "status" None ["SUCCEEDED"];
             data.Field.mk "download_url" None [presignedUrl]]]
         None 0).
Proof. split; vm_compute; reflexivity. Qed.

(** TestHandleStatusAction, "invalid step function ARN". *)
Example replay_status_invalid_arn :
  exists msg,
    outcomeOf (handleStatusAction dsInvalidArn qmStatus 0%nat) =
      Returned (backend.ErrDataResponse backend.StatusBadRequest msg) /\
    strings_Contains msg "Failed to parse Step Function ARN" = true.
Proof. eexists. split; vm_compute; reflexivity. Qed.

(** TestCheckHealth: "successful health check", "nil sfn client" and
    "step function not found". *)
Example replay_check_health :
  outcomeOf (CheckHealth dsStarting healthRequest 0%nat) =
    Returned
      (backend.CheckHealthResult.mk backend.HealthStatusOk
         "Data source is working: Step Function is accessible,S3 Bucket access is not being tested.",
       None) /\
  outcomeOf (CheckHealth dsNoClients healthRequest 0%nat) =
    Returned
      (backend.CheckHealthResult.mk backend.HealthStatusOk
         "Data source is working: S3 Bucket access is not being tested.",
       None) /\
  outcomeOf (CheckHealth dsUnreachable healthRequest 0%nat) =
    Returned
      (backend.CheckHealthResult.mk backend.HealthStatusError
         "Cannot access Step Function: StateMachineDoesNotExist: State Machine Does Not Exist",
       None).
Proof. repeat split. Qed.

(** A handler that needs the Step Functions client panics without one. *)
Example replay_nil_client_panics :
  outcomeOf (handleRequestAction dsNoClients qmRequest 0%nat) =
    Panicked nilDereference.
Proof. vm_compute. reflexivity. Qed.

(** * Further properties of the backend *)

Section BackendProperties.

Context {W : Type} {libs : GoLibraries}.

Ltac drop_events H :=
  repeat (destruct H as [H|H]; [try discriminate H|]);
  try (exfalso; exact H).

Lemma eqb_same (s : string) : (s =? s)%string = true.
Proof. apply String.eqb_refl. Qed.

Lemma handleRequestAction_run (d : Datasource W) (qm : queryModel) (w : W) :
  requestRun d qm w (handleRequestAction d qm w).
Proof.
  unfold handleRequestAction, executeStepFunction.
  destruct (size (Extract qm) =? 0)%nat eqn:Ee.
  { apply requestRun_noExtract. now apply Nat.eqb_eq. }
  apply Nat.eqb_neq in Ee.
  destruct (JobId qm =? "")%string eqn:Ej.
  { apply requestRun_noJobId; [assumption | now apply String.eqb_eq]. }
  apply String.eqb_neq in Ej.
  fold (sfnInputOf d qm).
  cbv [bind ret Logger.Info Logger.Error Logger.Debug Logger.log
       callStartExecution].
  destruct (json_Marshal (sfnInputOf d qm)) as [s|err] eqn:Em.
  - destruct (sfnClient d) as [c|] eqn:Ec.
    + destruct (StartExecution c _ w) as [[out|err] w1] eqn:Es.
      * eapply requestRun_started; eassumption.
      * eapply requestRun_failed; eassumption.
    + eapply requestRun_nilClient; eassumption.
  - now apply requestRun_marshal.
Qed.

Lemma handleStatusAction_run (d : Datasource W) (qm : queryModel) (w : W) :
  statusRun d qm w (handleStatusAction d qm w).
Proof.
  unfold handleStatusAction.
  destruct (JobId qm =? "")%string eqn:Ej.
  { apply statusRun_noJobId. now apply String.eqb_eq. }
  apply String.eqb_neq in Ej.
  destruct (arn_Parse _) as [a|err] eqn:Ea.
  2:{ now apply statusRun_badArn. }
  fold (executionArnOf a qm).
  cbv [bind ret Logger.Info Logger.Error Logger.Warn Logger.log
       callDescribeExecution].
  destruct (sfnClient d) as [c|] eqn:Ec.
  2:{ eapply statusRun_nilClient; eassumption. }
  destruct (DescribeExecution c _ w) as [[out|err] w1] eqn:Ed.
  2:{ eapply statusRun_describeFailed; eassumption. }
  destruct (sfn.DescribeExecutionOutput.Status out =? "SUCCEEDED")%string
    eqn:Es.
  - apply String.eqb_eq in Es.
    pose proof (generatePresignedURL_run d (models.S3Bucket (settings d))
                  (JobId qm +:+ ".pcapng") w1) as Hp.
    destruct (generatePresignedURL d _ _ w1) as [[og trg] wg].
    inversion Hp; subst;
      match goal with
      | Hq : presignRun _ _ _ _ (Returned _, _, _) |- _ =>
          pose proof (statusRun_succeeded d qm w a c out _ _ _ _
                        Ej Ea Ec Ed Es Hq) as Hrun
      end;
      unfold reportedFields, statusLog, downloadField, downloadWarning in *;
      destruct (sfn.DescribeExecutionOutput.Status out =? "FAILED")%string,
               (sfn.DescribeExecutionOutput.Error out),
               (sfn.DescribeExecutionOutput.Cause out);
      exact Hrun.
  - apply String.eqb_neq in Es.
    pose proof (statusRun_reported d qm w a c out w1 Ej Ea Ec Ed Es) as Hrun.
    unfold reportedFields, statusLog in *.
    destruct (sfn.DescribeExecutionOutput.Status out =? "FAILED")%string,
             (sfn.DescribeExecutionOutput.Error out),
             (sfn.DescribeExecutionOutput.Cause out);
      exact Hrun.
Qed.

Lemma CheckHealth_run (d : Datasource W) (req : backend.CheckHealthRequest.t)
    (w : W) :
  healthRun d w (CheckHealth d req w).
Proof.
  unfold CheckHealth.
  destruct (models.S3Bucket (settings d) =? "")%string eqn:Eb.
  { apply healthRun_noBucket. now apply String.eqb_eq. }
  apply String.eqb_neq in Eb.
  destruct (models.StepFunctionArn (settings d) =? "")%string eqn:Ea.
  { apply healthRun_noArn; [assumption | now apply String.eqb_eq]. }
  apply String.eqb_neq in Ea.
  cbv [bind ret callDescribeStateMachine].
  destruct (sfnClient d) as [c|] eqn:Ec.
  - destruct (DescribeStateMachine c _ w) as [[out|err] w1] eqn:Ed.
    + eapply healthRun_accessible; eassumption.
    + eapply healthRun_inaccessible; eassumption.
  - now apply healthRun_noClient.
Qed.

(** ** The request handler *)

(** X1: an empty extraction map is rejected for every job id, before
    anything is logged, marshalled or sent, also on a datasource without a
    client. *)
Theorem empty_extract_rejected (d : Datasource W) (qm : queryModel) (w : W) :
  size (Extract qm) = 0%nat ->
  handleRequestAction d qm w =
    (Returned (backend.ErrDataResponse backend.StatusBadRequest
                 "Extract parameter is required for request action"),
     [], w).
Proof.
  intros He. unfold handleRequestAction. rewrite He. reflexivity.
Qed.

(** X2: when start-execution answers with an error, the response is a
    bad request whose message wraps the engine's text twice, the error is
    logged, and the call is the only start-execution call of the run: the
    handler does not try again. *)
Theorem start_failure_surfaced (d : Datasource W) (qm : queryModel) (w : W)
    (i : sfn.StartExecutionInput.t) (err : error) :
  In (StartExecutionCall i (inr err))
     (eventsOf (handleRequestAction d qm w)) ->
  outcomeOf (handleRequestAction d qm w) =
    Returned (backend.ErrDataResponse backend.StatusBadRequest
                ("Step Function execution failed: " +:+
                 "failed to execute Step Function execution: " +:+ err)) /\
  startExecutionCalls (eventsOf (handleRequestAction d qm w)) = [i] /\
  In (LogCall backend.Error "Failed to execute Step Function"
        [LString "error";
         LError ("failed to execute Step Function execution: " +:+ err)])
     (eventsOf (handleRequestAction d qm w)).
Proof.
  intros Hin. pose proof (handleRequestAction_run d qm w) as Hr.
  destruct (handleRequestAction d qm w) as [[o tr] w'].
  unfold eventsOf, outcomeOf in *. cbn [fst snd] in *.
  inversion Hr; subst; cbn in Hin; drop_events Hin.
  injection Hin as <- <-. cbn. repeat split. auto.
Qed.

(** X3: whatever the datasource, the query and the clients do, a request
    run calls a client at most once, and that call is start-execution:
    the request handler never describes an execution and never presigns. *)
Theorem request_calls_only_start (d : Datasource W) (qm : queryModel)
    (w : W) :
  clientCalls (eventsOf (handleRequestAction d qm w)) = [] \/
  exists i r,
    clientCalls (eventsOf (handleRequestAction d qm w)) =
      [StartExecutionCall i r].
Proof.
  pose proof (handleRequestAction_run d qm w) as Hr.
  destruct (handleRequestAction d qm w) as [[o tr] w'].
  unfold eventsOf. cbn [fst snd].
  inversion Hr; subst; cbn; eauto.
Qed.

(** ** The status handler *)

(** X4: when describe-execution answers with an error, the response is a
    bad request with the engine's text, and nothing is presigned. *)
Theorem describe_failure_surfaced (d : Datasource W) (qm : queryModel)
    (w : W) (i : sfn.DescribeExecutionInput.t) (err : error) :
  In (DescribeExecutionCall i (inr err))
     (eventsOf (handleStatusAction d qm w)) ->
  outcomeOf (handleStatusAction d qm w) =
    Returned (backend.ErrDataResponse backend.StatusBadRequest
                ("Failed to get execution status: " +:+ err)) /\
  clientCalls (eventsOf (handleStatusAction d qm w)) =
    [DescribeExecutionCall i (inr err)].
Proof.
  intros Hin. pose proof (handleStatusAction_run d qm w) as Hr.
  destruct (handleStatusAction d qm w) as [[o tr] w'].
  unfold eventsOf, outcomeOf in *. cbn [fst snd] in *.
  inversion Hr; subst; unfold statusLog in *; cbn in Hin.
  1-3, 5: drop_events Hin.
  - drop_events Hin. injection Hin as <- <-. split; reflexivity.
  - match goal with Hq : presignRun _ _ _ _ _ |- _ => inversion Hq; subst end;
      cbn in Hin; drop_events Hin.
Qed.

(** X5: a status run calls the clients in one of three ways: not at all,
    describe-execution alone, or describe-execution with status SUCCEEDED
    followed by one presign.  It never starts an execution, and it never
    presigns before or without a describe-execution that said SUCCEEDED. *)
Theorem status_call_sequence (d : Datasource W) (qm : queryModel) (w : W) :
  clientCalls (eventsOf (handleStatusAction d qm w)) = [] \/
  (exists i r,
      clientCalls (eventsOf (handleStatusAction d qm w)) =
        [DescribeExecutionCall i r]) \/
  (exists i out gi fns r,
      clientCalls (eventsOf (handleStatusAction d qm w)) =
        [DescribeExecutionCall i (inl out); PresignGetObjectCall gi fns r] /\
      sfn.DescribeExecutionOutput.Status out = "SUCCEEDED").
Proof.
  pose proof (handleStatusAction_run d qm w) as Hr.
  destruct (handleStatusAction d qm w) as [[o tr] w'].
  unfold eventsOf. cbn [fst snd].
  inversion Hr; subst; unfold statusLog; cbn; eauto.
  match goal with Hq : presignRun _ _ _ _ _ |- _ => inversion Hq; subst end;
    cbn; eauto 10.
Qed.

(** X6: which fields a status frame has, for every status the engine can
    answer: the first field is status with the engine's text as it is; an
    error field exactly for FAILED with an error string; a cause field
    exactly when there is a cause string; a download_url field only for
    SUCCEEDED. *)
Theorem status_frame_fields (d : Datasource W) (qm : queryModel) (w : W)
    (i : sfn.DescribeExecutionInput.t)
    (out : sfn.DescribeExecutionOutput.t) :
  In (DescribeExecutionCall i (inl out))
     (eventsOf (handleStatusAction d qm w)) ->
  exists frame,
    outcomeOf (handleStatusAction d qm w) =
      Returned (backend.DataResponse.mk [frame] None 0) /\
    nth_error (data.Frame.Fields frame) 0 =
      Some (data.Field.mk "status" None
              [sfn.DescribeExecutionOutput.Status out]) /\
    (hasField "error" frame = true <->
     sfn.DescribeExecutionOutput.Status out = "FAILED" /\
     sfn.DescribeExecutionOutput.Error out <> None) /\
    (hasField "cause" frame = true <->
     sfn.DescribeExecutionOutput.Cause out <> None) /\
    (hasField "download_url" frame = true ->
     sfn.DescribeExecutionOutput.Status out = "SUCCEEDED").
Proof.
  intros Hin.
  destruct (handleStatusAction_described d qm w i out Hin)
    as (a & w1 & _ & _ & Hrun).
  assert (Hrep :
    forall extra,
      hasField "error" (data.Frame.mk "step_function_status"
                          (reportedFields out ++ extra)) =
        ((sfn.DescribeExecutionOutput.Status out =? "FAILED")%string &&
         match sfn.DescribeExecutionOutput.Error out with
         | Some _ => true | None => false end ||
         existsb (fun f => (data.Field.Name f =? "error")%string) extra) /\
      hasField "cause" (data.Frame.mk "step_function_status"
                          (reportedFields out ++ extra)) =
        (match sfn.DescribeExecutionOutput.Cause out with
         | Some _ => true | None => false end ||
         existsb (fun f => (data.Field.Name f =? "cause")%string) extra) /\
      hasField "download_url" (data.Frame.mk "step_function_status"
                                 (reportedFields out ++ extra)) =
        existsb (fun f => (data.Field.Name f =? "download_url")%string)
                extra).
  { intros extra. unfold hasField, reportedFields. cbn.
    destruct (sfn.DescribeExecutionOutput.Status out =? "FAILED")%string,
             (sfn.DescribeExecutionOutput.Error out),
             (sfn.DescribeExecutionOutput.Cause out); cbn; auto. }
  destruct (sfn.DescribeExecutionOutput.Status out =? "SUCCEEDED")%string
    eqn:Es.
  - destruct Hrun as (res & tr & w2 & _ & Hrun).
    rewrite Hrun. unfold outcomeOf. cbn [fst].
    eexists. split; [reflexivity|].
    destruct (Hrep (match res with
                    | inl url => [data.Field.mk "download_url" None [url]]
                    | inr _ => []
                    end)) as (He & Hc & Hd).
    rewrite He, Hc, Hd. apply String.eqb_eq in Es.
    split; [reflexivity|].
    destruct (sfn.DescribeExecutionOutput.Status out =? "FAILED")%string
      eqn:Ef; [apply String.eqb_eq in Ef | apply String.eqb_neq in Ef];
      destruct (sfn.DescribeExecutionOutput.Error out),
               (sfn.DescribeExecutionOutput.Cause out), res;
      cbn; intuition congruence.
  - rewrite Hrun. unfold outcomeOf. cbn [fst].
    eexists. split; [reflexivity|].
    destruct (Hrep []) as (He & Hc & Hd).
    rewrite <- (app_nil_r (reportedFields out)).
    rewrite He, Hc, Hd. rewrite app_nil_r.
    split; [reflexivity|].
    destruct (sfn.DescribeExecutionOutput.Status out =? "FAILED")%string
      eqn:Ef; [apply String.eqb_eq in Ef | apply String.eqb_neq in Ef];
      destruct (sfn.DescribeExecutionOutput.Error out),
               (sfn.DescribeExecutionOutput.Cause out);
      cbn; intuition congruence.
Qed.

(** ** The execution ARN *)

Lemma strings_Replace1_unfold (s old new : string) :
  strings_Replace1 s old new =
    if String.prefix old s then new +:+ dropString (String.length old) s
    else
      match s with
      | EmptyString => EmptyString
      | String c s' => String c (strings_Replace1 s' old new)
      end.
Proof. destruct s; reflexivity. Qed.

Lemma dropString_append (a b : string) :
  dropString (String.length a) (a +:+ b) = b.
Proof. induction a as [|c a IH]; [now destruct b | exact IH]. Qed.

Lemma strings_Replace1_prefix (old rest new : string) :
  strings_Replace1 (old +:+ rest) old new = new +:+ rest.
Proof.
  rewrite strings_Replace1_unfold, prefix_append, dropString_append.
  reflexivity.
Qed.

Lemma strings_Contains_unfold (s sub : string) :
  strings_Contains s sub =
    String.prefix sub s ||
    match s with
    | EmptyString => false
    | String _ s' => strings_Contains s' sub
    end.
Proof. destruct s; reflexivity. Qed.

Lemma strings_Replace1_absent (s old new : string) :
  strings_Contains s old = false -> strings_Replace1 s old new = s.
Proof.
  induction s as [|c s IH]; intros Hc;
    rewrite strings_Replace1_unfold; rewrite strings_Contains_unfold in Hc;
    apply orb_false_iff in Hc as [Hp Hrest]; rewrite Hp.
  - reflexivity.
  - now rewrite (IH Hrest).
Qed.

Lemma describe_input_of_run (d : Datasource W) (qm : queryModel) (w : W)
    (a : arn.ARN) (c : SFNClientInterface W) :
  JobId qm <> "" ->
  arn_Parse (models.StepFunctionArn (settings d)) = inl a ->
  sfnClient d = Some c ->
  describeExecutionCalls (eventsOf (handleStatusAction d qm w)) =
    [sfn.DescribeExecutionInput.mk (executionArnOf a qm)].
Proof.
  intros Hj Ha Hc. pose proof (handleStatusAction_run d qm w) as Hr.
  destruct (handleStatusAction d qm w) as [[o tr] w'].
  unfold eventsOf. cbn [fst snd].
  inversion Hr; subst; try congruence;
    match goal with
    | H1 : arn_Parse _ = inl ?x, H2 : arn_Parse _ = inl ?y |- _ =>
        rewrite H1 in H2; injection H2 as <-
    end; unfold statusLog; cbn; try reflexivity.
  match goal with Hq : presignRun _ _ _ _ _ |- _ => inversion Hq; subst end;
    reflexivity.
Qed.

(** X7: for a workflow ARN whose resource is stateMachine: followed by a
    name, the one describe-execution call of a status run is for the ARN
    arn:aws:states:<region>:<account>:execution:<name>:<job id>, with the
    region and account of the configured ARN; partition and service are
    the fixed aws and states whatever the configured ARN has there. *)
Theorem execution_arn_of_state_machine (d : Datasource W) (qm : queryModel)
    (w : W) (a : arn.ARN) (c : SFNClientInterface W) (name : string) :
  JobId qm <> "" ->
  arn_Parse (models.StepFunctionArn (settings d)) = inl a ->
  arn.Resource a = "stateMachine:" +:+ name ->
  sfnClient d = Some c ->
  describeExecutionCalls (eventsOf (handleStatusAction d qm w)) =
    [sfn.DescribeExecutionInput.mk
       ("arn:aws:states:" +:+ arn.Region a +:+ ":" +:+ arn.AccountID a +:+
        ":execution:" +:+ name +:+ ":" +:+ JobId qm)].
Proof.
  intros Hj Ha Hres Hc.
  rewrite (describe_input_of_run d qm w a c Hj Ha Hc).
  unfold executionArnOf. rewrite Hres, strings_Replace1_prefix.
  reflexivity.
Qed.

(** X8: a resource that nowhere holds the text stateMachine: goes into
    the execution ARN unchanged. *)
Theorem execution_arn_of_other_resource (d : Datasource W) (qm : queryModel)
    (w : W) (a : arn.ARN) (c : SFNClientInterface W) :
  JobId qm <> "" ->
  arn_Parse (models.StepFunctionArn (settings d)) = inl a ->
  strings_Contains (arn.Resource a) "stateMachine:" = false ->
  sfnClient d = Some c ->
  describeExecutionCalls (eventsOf (handleStatusAction d qm w)) =
    [sfn.DescribeExecutionInput.mk
       ("arn:aws:states:" +:+ arn.Region a +:+ ":" +:+ arn.AccountID a +:+
        ":execution:" +:+ arn.Resource a +:+ ":" +:+ JobId qm)].
Proof.
  intros Hj Ha Hres Hc.
  rewrite (describe_input_of_run d qm w a c Hj Ha Hc).
  unfold executionArnOf. rewrite (strings_Replace1_absent _ _ _ Hres).
  reflexivity.
Qed.

(** ** The dispatcher *)

Lemma validateSettings_None (d : Datasource W) :
  validateSettings d = None <->
  models.StepFunctionArn (settings d) <> "" /\
  models.S3Bucket (settings d) <> "".
Proof.
  unfold validateSettings.
  destruct (models.StepFunctionArn (settings d) =? "")%string eqn:Ea;
    [apply String.eqb_eq in Ea | apply String.eqb_neq in Ea];
    destruct (models.S3Bucket (settings d) =? "")%string eqn:Eb;
    [apply String.eqb_eq in Eb | apply String.eqb_neq in Eb
    |apply String.eqb_eq in Eb | apply String.eqb_neq in Eb];
    intuition congruence.
Qed.

(** The five ways [query] can go. *)
Lemma query_cases (d : Datasource W) (pCtx : backend.PluginContext)
    (q : backend.DataQuery.t) (w : W) :
  (exists reason,
      validateSettings d = Some reason /\
      query d pCtx q w =
        (Returned (backend.ErrDataResponse backend.StatusBadRequest
                     ("Incomplete plugin settings: " +:+ reason)), [], w)) \/
  (exists err,
      json_Unmarshal (backend.DataQuery.JSON q) = inr err /\
      query d pCtx q w =
        (Returned (backend.ErrDataResponse backend.StatusBadRequest
                     ("json unmarshal: " +:+ err)), [], w)) \/
  (exists qm,
      json_Unmarshal (backend.DataQuery.JSON q) = inl qm /\
      (query d pCtx q w = handleRequestAction d qm w \/
       query d pCtx q w = handleStatusAction d qm w \/
       query d pCtx q w =
         (Returned (backend.ErrDataResponse backend.StatusBadRequest
                      ("unknown action: '" +:+ Action qm +:+ "'")),
          [], w))).
Proof.
  unfold query.
  destruct (validateSettings d) as [reason|]; [left; eauto|].
  destruct (json_Unmarshal _) as [qm|err]; [|right; left; eauto].
  right; right. exists qm. split; [reflexivity|].
  destruct (Action qm =? "request")%string; [auto|].
  destruct (Action qm =? "status")%string; auto.
Qed.

Lemma reportedFields_head (out : sfn.DescribeExecutionOutput.t) :
  exists rest,
    reportedFields out =
      data.Field.mk "status" None [sfn.DescribeExecutionOutput.Status out]
      :: rest.
Proof. unfold reportedFields. cbn. eauto. Qed.

Lemma requestRun_wellShaped (d : Datasource W) (qm : queryModel) (w : W)
    (resp : backend.DataResponse.t) :
  outcomeOf (handleRequestAction d qm w) = Returned resp -> wellShaped resp.
Proof.
  pose proof (handleRequestAction_run d qm w) as Hr.
  destruct (handleRequestAction d qm w) as [[o tr] w'].
  unfold outcomeOf. cbn [fst]. intros ->.
  inversion Hr; subst; try (left; eexists; reflexivity).
  right. unfold runningResponse. eexists _, _, _. split; reflexivity.
Qed.

Lemma statusRun_wellShaped (d : Datasource W) (qm : queryModel) (w : W)
    (resp : backend.DataResponse.t) :
  outcomeOf (handleStatusAction d qm w) = Returned resp -> wellShaped resp.
Proof.
  pose proof (handleStatusAction_run d qm w) as Hr.
  destruct (handleStatusAction d qm w) as [[o tr] w'].
  unfold outcomeOf. cbn [fst]. intros ->.
  inversion Hr; subst; try (left; eexists; reflexivity);
    right;
    try match goal with
        | |- context [reportedFields ?o] =>
            destruct (reportedFields_head o) as [rest Hrest]; rewrite Hrest
        end;
    eexists _, _, _; (split; [reflexivity|]); reflexivity.
Qed.

Lemma query_wellShaped (d : Datasource W) (pCtx : backend.PluginContext)
    (q : backend.DataQuery.t) (w : W) (resp : backend.DataResponse.t) :
  outcomeOf (query d pCtx q w) = Returned resp -> wellShaped resp.
Proof.
  destruct (query_cases d pCtx q w)
    as [(reason & _ & Hq) | [(err & _ & Hq) | (qm & _ & [Hq | [Hq | Hq]])]];
    rewrite Hq.
  - unfold outcomeOf. cbn. intros [= <-]. left. eauto.
  - unfold outcomeOf. cbn. intros [= <-]. left. eauto.
  - apply requestRun_wellShaped.
  - apply statusRun_wellShaped.
  - unfold outcomeOf. cbn. intros [= <-]. left. eauto.
Qed.

(** X9: every response [query] returns has one of two shapes: an error
    with status 400 and no frame, or no error, the zero status and exactly
    one frame whose first field is status with one value.  No failure of
    settings, payload, engine or storage is reported under another
    status. *)
Theorem query_response_shape (d : Datasource W)
    (pCtx : backend.PluginContext) (q : backend.DataQuery.t) (w : W)
    (resp : backend.DataResponse.t) :
  outcomeOf (query d pCtx q w) = Returned resp -> wellShaped resp.
Proof. apply query_wellShaped. Qed.


(** X11: with a blank Step Function ARN or a blank bucket every query is
    answered with the bad request about the settings, whatever its
    payload, and nothing is decoded, logged or called; when both are
    blank the message is the one about the ARN. *)
Theorem incomplete_settings_rejected (d : Datasource W)
    (pCtx : backend.PluginContext) (q : backend.DataQuery.t) (w : W) :
  models.StepFunctionArn (settings d) = "" \/
  models.S3Bucket (settings d) = "" ->
  query d pCtx q w =
    (Returned
       (backend.ErrDataResponse backend.StatusBadRequest
          ("Incomplete plugin settings: " +:+
           (if (models.StepFunctionArn (settings d) =? "")%string
            then "Step Function ARN not configured"
            else "S3 Bucket name not configured"))),
     [], w).
Proof.
  intros Hs. unfold query, validateSettings.
  destruct (models.StepFunctionArn (settings d) =? "")%string eqn:Ea;
    [reflexivity|].
  apply String.eqb_neq in Ea. destruct Hs as [Hs | Hs]; [contradiction|].
  rewrite Hs. reflexivity.
Qed.

(** X12: with the settings in place, a payload that does not decode is
    answered with a bad request that carries the decoder's text, and
    nothing is logged or called. *)
Theorem undecodable_payload_rejected (d : Datasource W)
    (pCtx : backend.PluginContext) (q : backend.DataQuery.t) (w : W)
    (err : error) :
  validateSettings d = None ->
  json_Unmarshal (backend.DataQuery.JSON q) = inr err ->
  query d pCtx q w =
    (Returned (backend.ErrDataResponse backend.StatusBadRequest
                 ("json unmarshal: " +:+ err)), [], w).
Proof. intros Hv Hu. unfold query. rewrite Hv, Hu. reflexivity. Qed.

(** ** The health check *)

(** X13: the health check always returns a result and a nil error, with
    or without a client; it calls at most one client operation, which is
    describe-state-machine for the configured ARN. *)
Theorem health_check_total (d : Datasource W)
    (req : backend.CheckHealthRequest.t) (w : W) :
  exists res,
    outcomeOf (CheckHealth d req w) = Returned (res, None) /\
    (eventsOf (CheckHealth d req w) = [] \/
     exists r,
       eventsOf (CheckHealth d req w) =
         [DescribeStateMachineCall
            (sfn.DescribeStateMachineInput.mk
               (models.StepFunctionArn (settings d))) r]).
Proof.
  pose proof (CheckHealth_run d req w) as Hr.
  destruct (CheckHealth d req w) as [[o tr] w'].
  unfold outcomeOf, eventsOf. cbn [fst snd].
  inversion Hr; subst; eexists; split; eauto.
Qed.

(** X14: the health check is green exactly when both settings are set
    and describe-state-machine did not fail (it is not called without a
    client).  So a green check means no query is rejected for its
    settings. *)
Theorem health_ok_iff (d : Datasource W)
    (req : backend.CheckHealthRequest.t) (w : W)
    (res : backend.CheckHealthResult.t) (e : option error) :
  outcomeOf (CheckHealth d req w) = Returned (res, e) ->
  (backend.CheckHealthResult.Status res = backend.HealthStatusOk <->
   validateSettings d = None /\
   forall i err,
     ~ In (DescribeStateMachineCall i (inr err))
          (eventsOf (CheckHealth d req w))).
Proof.
  pose proof (CheckHealth_run d req w) as Hr.
  destruct (CheckHealth d req w) as [[o tr] w'].
  unfold outcomeOf, eventsOf. cbn [fst snd]. intros ->.
  rewrite validateSettings_None.
  inversion Hr; subst; cbn; split;
    try discriminate; try (intros [[? ?] _]; congruence);
    try (intros _; split; [auto|]; intros i err' Hin; drop_events Hin);
    try reflexivity.
  intros [_ Hno]. exfalso. eapply Hno. left. reflexivity.
Qed.

(** X15: when describe-state-machine fails the health check reports
    status error with the engine's text after a fixed prefix. *)
Theorem health_reports_engine_error (d : Datasource W)
    (req : backend.CheckHealthRequest.t) (w : W)
    (i : sfn.DescribeStateMachineInput.t) (err : error) :
  In (DescribeStateMachineCall i (inr err))
     (eventsOf (CheckHealth d req w)) ->
  outcomeOf (CheckHealth d req w) =
    Returned (backend.CheckHealthResult.mk backend.HealthStatusError
                ("Cannot access Step Function: " +:+ err), None).
Proof.
  intros Hin. pose proof (CheckHealth_run d req w) as Hr.
  destruct (CheckHealth d req w) as [[o tr] w'].
  unfold outcomeOf, eventsOf in *. cbn [fst snd] in *.
  inversion Hr; subst; cbn in Hin; drop_events Hin.
  injection Hin as _ <-. reflexivity.
Qed.

(** ** QueryData *)

Lemma QueryData_loop_returned (d : Datasource W)
    (pCtx : backend.PluginContext) (queries : list backend.DataQuery.t) :
  forall (acc : gmap string backend.DataResponse.t) (w : W)
         (m : gmap string backend.DataResponse.t),
    outcomeOf (QueryData_loop d pCtx queries acc w) = Returned m ->
    dom m = dom acc ∪ refIDs queries /\
    ((forall k r, acc !! k = Some r -> wellShaped r) ->
     forall k r, m !! k = Some r -> wellShaped r).
Proof.
  induction queries as [|q rest IH]; intros acc w m.
  - unfold outcomeOf, refIDs. cbn. intros [= <-]. split; [set_solver|auto].
  - cbn [QueryData_loop]. unfold bind.
    pose proof (query_wellShaped d pCtx q w) as Hshape.
    destruct (query d pCtx q w) as [[[res|msg] tr] w1];
      [|unfold outcomeOf; cbn; discriminate].
    specialize (IH (<[backend.DataQuery.RefID q := res]> acc) w1).
    destruct (QueryData_loop d pCtx rest _ w1) as [[o tr'] w2].
    unfold outcomeOf in *. cbn [fst] in *. intros ->.
    destruct (IH m eq_refl) as [Hdom Hall]. split.
    + rewrite Hdom, dom_insert_L. unfold refIDs. cbn. set_solver.
    + intros Hacc. apply Hall. intros k r.
      rewrite lookup_insert. case_decide.
      * intros [= <-]. now apply Hshape.
      * apply Hacc.
Qed.

(** X16: when [QueryData] returns, its error is nil and the response map
    has exactly the RefIDs of the queries as keys (queries that share a
    RefID share one entry); every response in it is shaped as [query]
    shapes them. *)
Theorem QueryData_responses (d : Datasource W)
    (pCtx : backend.PluginContext) (queries : list backend.DataQuery.t)
    (w : W) (m : gmap string backend.DataResponse.t) (e : option error) :
  outcomeOf (QueryData d pCtx queries w) = Returned (m, e) ->
  e = None /\
  dom m = refIDs queries /\
  forall k r, m !! k = Some r -> wellShaped r.
Proof.
  unfold QueryData, bind.
  pose proof (QueryData_loop_returned d pCtx queries ∅ w) as Hloop.
  destruct (QueryData_loop d pCtx queries ∅ w) as [[[m'|msg] tr] w1];
    unfold outcomeOf in *; cbn in *; [|discriminate].
  intros [= <- <-]. destruct (Hloop m' eq_refl) as [Hdom Hall].
  split; [reflexivity|]. split.
  - rewrite Hdom. set_solver.
  - apply Hall. intros k r. rewrite lookup_empty. discriminate.
Qed.

Lemma QueryData_loop_snoc (d : Datasource W) (pCtx : backend.PluginContext)
    (queries : list backend.DataQuery.t) (q : backend.DataQuery.t) :
  forall (acc m : gmap string backend.DataResponse.t) (w w1 w2 : W)
         (tr tr' : list event) (r : backend.DataResponse.t),
    QueryData_loop d pCtx queries acc w = (Returned m, tr, w1) ->
    query d pCtx q w1 = (Returned r, tr', w2) ->
    QueryData_loop d pCtx (queries ++ [q]) acc w =
      (Returned (<[backend.DataQuery.RefID q := r]> m), tr ++ tr', w2).
Proof.
  induction queries as [|q0 rest IH]; intros acc m w w1 w2 tr tr' r.
  - cbn. unfold ret, bind. intros [= <- <- <-] ->. cbn.
    now rewrite app_nil_r.
  - cbn [QueryData_loop app]. unfold bind.
    destruct (query d pCtx q0 w) as [[[res|msg] tr0] w0];
      [|discriminate].
    destruct (QueryData_loop d pCtx rest _ w0) as [[o trr] wr] eqn:El.
    intros [= -> <- ->] Hq.
    rewrite (IH _ _ _ _ _ _ _ _ El Hq). now rewrite app_assoc.
Qed.

(** X17: queries run in the order of the request, each on the client
    state the one before left behind, and their events follow each other;
    the response of the last query is stored under its RefID, replacing
    what an earlier query with the same RefID left there. *)
Theorem QueryData_appends_last (d : Datasource W)
    (pCtx : backend.PluginContext) (queries : list backend.DataQuery.t)
    (q : backend.DataQuery.t) (m : gmap string backend.DataResponse.t)
    (w w1 w2 : W) (tr tr' : list event) (r : backend.DataResponse.t) :
  QueryData d pCtx queries w = (Returned (m, None), tr, w1) ->
  query d pCtx q w1 = (Returned r, tr', w2) ->
  QueryData d pCtx (queries ++ [q]) w =
    (Returned (<[backend.DataQuery.RefID q := r]> m, None), tr ++ tr', w2).
Proof.
  unfold QueryData, bind, ret.
  destruct (QueryData_loop d pCtx queries ∅ w) as [[[m'|msg] tr0] w0] eqn:El;
    [|discriminate].
  intros [= <- <- <-] Hq. rewrite app_nil_r.
  rewrite (QueryData_loop_snoc _ _ _ _ _ _ _ _ _ _ _ _ El Hq).
  now rewrite app_nil_r.
Qed.

(** X18: on a datasource with incomplete settings [QueryData] answers
    every query of the request with the same bad request about the
    settings and calls nothing, however many queries there are. *)
Theorem QueryData_incomplete_settings (d : Datasource W)
    (pCtx : backend.PluginContext) (queries : list backend.DataQuery.t)
    (w : W) (reason : error) :
  validateSettings d = Some reason ->
  exists m,
    QueryData d pCtx queries w = (Returned (m, None), [], w) /\
    forall q, In q queries ->
      m !! backend.DataQuery.RefID q =
        Some (backend.ErrDataResponse backend.StatusBadRequest
                ("Incomplete plugin settings: " +:+ reason)).
Proof.
  intros Hv.
  assert (Hloop : forall acc,
    exists m,
      QueryData_loop d pCtx queries acc w = (Returned m, [], w) /\
      (forall q, In q queries ->
         m !! backend.DataQuery.RefID q =
           Some (backend.ErrDataResponse backend.StatusBadRequest
                   ("Incomplete plugin settings: " +:+ reason))) /\
      (forall k, ~ In k (backend.DataQuery.RefID <$> queries) ->
         m !! k = acc !! k)).
  { induction queries as [|q rest IH]; intros acc.
    - exists acc. cbn. split; [reflexivity|]. split; [intros q [] | auto].
    - cbn [QueryData_loop]. unfold bind, query. rewrite Hv. unfold ret.
      destruct (IH (<[backend.DataQuery.RefID q :=
                       backend.ErrDataResponse backend.StatusBadRequest
                         ("Incomplete plugin settings: " +:+ reason)]> acc))
        as (m & Hrun & Hin & Hout).
      rewrite Hrun. exists m. split; [reflexivity|]. split.
      + intros q' [<- | Hq']; [|now apply Hin].
        destruct (in_dec string_dec (backend.DataQuery.RefID q)
                    (backend.DataQuery.RefID <$> rest)) as [Hr | Hr].
        * apply in_map_iff in Hr as (q2 & Heq & Hq2).
          rewrite <- Heq. now apply Hin.
        * rewrite (Hout _ Hr). apply lookup_insert_eq.
      + intros k Hk. rewrite Hout by (intros Hin'; apply Hk; now right).
        apply lookup_insert_ne. intros Heq. apply Hk. now left. }
  unfold QueryData, bind, ret.
  destruct (Hloop ∅) as (m & Hrun & Hin & _).
  rewrite Hrun. exists m. split; [reflexivity | exact Hin].
Qed.

End BackendProperties.

(** * Properties of the panel *)

Section Grouping.

Variable inherited : string -> bool.

Lemma includes_elem_of (l : list (option Z)) (x : option Z) :
  Panel.includes l x = true <-> x ∈ l.
Proof.
  unfold Panel.includes. rewrite existsb_exists. split.
  - intros (y & Hy & Heq). apply bool_decide_eq_true in Heq. subst y.
    now apply list_elem_of_In.
  - intros Hx. exists x. split; [now apply list_elem_of_In|].
    now apply bool_decide_eq_true.
Qed.

Lemma groupOf_insert (m : Panel.Groups) (f f' : string)
    (l : list (option Z)) :
  Panel.groupOf (<[f := l]> m) f' =
    if decide (f = f') then l else Panel.groupOf m f'.
Proof.
  unfold Panel.groupOf. rewrite lookup_insert. now case_decide.
Qed.

Lemma groupOne_None (m : Panel.Groups) (f : string) (x : option Z) :
  Panel.groupOne inherited m f x = None <-> inherited f = true.
Proof.
  unfold Panel.groupOne. destruct (inherited f); [tauto|].
  split; [|discriminate].
  destruct (Panel.includes _ x); discriminate.
Qed.

(** One turn of the loop: the pair is added to the groups, and nothing
    else changes. *)
Lemma groupOne_Some (m m' : Panel.Groups) (f : string) (x : option Z) :
  Panel.groupOne inherited m f x = Some m' ->
  (forall f' y,
      y ∈ Panel.groupOf m' f' <->
      y ∈ Panel.groupOf m f' \/ (f' = f /\ y = x)) /\
  (Panel.goodGroups m -> Panel.goodGroups m').
Proof.
  unfold Panel.groupOne. destruct (inherited f); [discriminate|].
  destruct (m !! f) as [l|] eqn:El.
  - (* the key is there *)
    assert (Hg : Panel.groupOf m f = l) by (unfold Panel.groupOf; now rewrite El).
    change (default [] (m !! f)) with (Panel.groupOf m f). rewrite Hg.
    destruct (Panel.includes l x) eqn:Ei.
    + intros [= <-]. apply includes_elem_of in Ei. split; [|auto].
      intros f' y. split; [auto|]. intros [Hy | [-> ->]]; [auto|].
      now rewrite Hg.
    + intros [= <-].
      assert (Hx : x ∉ l).
      { intros Hx. apply includes_elem_of in Hx. congruence. }
      split.
      * intros f' y. rewrite groupOf_insert. case_decide as Hf.
        -- subst f'. rewrite Hg, elem_of_app, list_elem_of_singleton.
           tauto.
        -- split; [auto|]. intros [Hy | [-> _]]; [auto | contradiction].
      * intros Hgood f' l'. rewrite lookup_insert. case_decide as Hf.
        -- intros [= <-]. destruct (Hgood f l El) as [Hnd _]. split.
           ++ apply NoDup_app. repeat split; [assumption| |apply NoDup_singleton].
              intros y Hy Hy'. apply list_elem_of_singleton in Hy'.
              now subst y.
           ++ now destruct l.
        -- apply Hgood.
  - (* the key is new: an empty group is made and the number pushed *)
    change (default [] (<[f:=[]]> m !! f))
      with (Panel.groupOf (<[f:=[]]> m) f).
    rewrite groupOf_insert. rewrite decide_True by reflexivity.
    cbn [Panel.includes existsb]. intros [= <-]. split.
    + intros f' y. rewrite !groupOf_insert. case_decide as Hf.
      * subst f'. unfold Panel.groupOf. rewrite El. cbn.
        rewrite list_elem_of_singleton. split; [auto|].
        intros [Hy | [_ ->]]; [now apply not_elem_of_nil in Hy | reflexivity].
      * split; [auto|]. intros [Hy | [-> _]]; [auto | contradiction].
    + intros Hgood f' l'. rewrite !lookup_insert. case_decide as Hf.
      * intros [= <-]. split; [apply NoDup_singleton | discriminate].
      * repeat case_decide; try contradiction. apply Hgood.
Qed.

Lemma groupFrom_None (packetNumbers : list Z) (remaining : list string) :
  forall (i : nat) (m : Panel.Groups),
    Panel.groupFrom inherited i remaining packetNumbers m = None <->
    exists f, f ∈ remaining /\ inherited f = true.
Proof.
  induction remaining as [|f rest IH]; intros i m; cbn [Panel.groupFrom].
  - split; [discriminate|]. intros (f & Hf & _).
    now apply not_elem_of_nil in Hf.
  - destruct (Panel.groupOne inherited m f (packetNumbers !! i))
      as [m'|] eqn:E1.
    + rewrite IH. split.
      * intros (f' & Hf' & Hi). exists f'. split; [now right | assumption].
      * intros (f' & Hf' & Hi).
        apply elem_of_cons in Hf' as [-> | Hf'].
        -- pose proof (proj2 (groupOne_None m f (packetNumbers !! i)) Hi)
             as Hn.
           rewrite Hn in E1. discriminate E1.
        -- eauto.
    + split; [|reflexivity]. intros _. exists f.
      split; [now left | now apply groupOne_None in E1].
Qed.

Lemma groupFrom_Some (packetNumbers : list Z) (remaining : list string) :
  forall (i : nat) (m g : Panel.Groups),
    Panel.groupFrom inherited i remaining packetNumbers m = Some g ->
    (forall f y,
        y ∈ Panel.groupOf g f <->
        y ∈ Panel.groupOf m f \/
        exists k, remaining !! k = Some f /\ y = packetNumbers !! (i + k)%nat)
    /\ (Panel.goodGroups m -> Panel.goodGroups g).
Proof.
  induction remaining as [|f0 rest IH]; intros i m g; cbn [Panel.groupFrom].
  - intros [= <-]. split; [|auto]. intros f y. split; [auto|].
    intros [Hy | (k & Hk & _)]; [assumption|].
    rewrite lookup_nil in Hk. discriminate.
  - destruct (Panel.groupOne inherited m f0 (packetNumbers !! i))
      as [m'|] eqn:E1; [|discriminate].
    intros Hrest. destruct (groupOne_Some _ _ _ _ E1) as [Hone Hgood1].
    destruct (IH _ _ _ Hrest) as [Hmem Hgood]. split; [|auto].
    intros f y. rewrite Hmem, Hone. split.
    + intros [[Hy | [-> ->]] | (k & Hk & ->)].
      * now left.
      * right. exists 0%nat. rewrite Nat.add_0_r. auto.
      * right. exists (S k). rewrite Nat.add_succ_r. auto.
    + intros [Hy | (k & Hk & ->)]; [auto|].
      destruct k as [|k]; cbn in Hk.
      * injection Hk as <-. rewrite Nat.add_0_r. auto.
      * right. exists k. rewrite Nat.add_succ_r. auto.
Qed.

Lemma goodGroups_empty : Panel.goodGroups ∅.
Proof. intros f l. rewrite lookup_empty. discriminate. Qed.

(** X19: when the grouping ends without a TypeError, a number is in the
    group of a source file exactly when the two stand at the same index of
    their columns; an index past the end of the packet column counts as
    undefined.  Nothing is lost and nothing is made up. *)
Theorem grouping_membership (sourceFiles : list string)
    (packetNumbers : list Z) (groups : Panel.Groups)
    (sourceFile : string) (packetNumber : option Z) :
  Panel.groupPackets inherited sourceFiles packetNumbers = Some groups ->
  ((exists group,
       groups !! sourceFile = Some group /\ packetNumber ∈ group) <->
   exists i,
     sourceFiles !! i = Some sourceFile /\
     packetNumber = packetNumbers !! i).
Proof.
  intros Hg. destruct (groupFrom_Some _ _ _ _ _ Hg) as [Hmem _].
  specialize (Hmem sourceFile packetNumber).
  unfold Panel.groupOf in Hmem. rewrite lookup_empty in Hmem.
  cbn [default] in Hmem. split.
  - intros (l & Hl & Hin). rewrite Hl in Hmem.
    destruct (proj1 Hmem Hin) as [Hf | Hex];
      [now apply not_elem_of_nil in Hf | exact Hex].
  - intros Hex. pose proof (proj2 Hmem (or_intror Hex)) as Hin.
    destruct (groups !! sourceFile) as [l|];
      [eauto | now apply not_elem_of_nil in Hin].
Qed.

(** X20: when the grouping ends without a TypeError, the keys of the
    result are exactly the source files of the column, no group is empty
    and no group holds a packet number twice. *)
Theorem grouping_keys_and_groups (sourceFiles : list string)
    (packetNumbers : list Z) (groups : Panel.Groups) :
  Panel.groupPackets inherited sourceFiles packetNumbers = Some groups ->
  dom groups = list_to_set sourceFiles /\
  forall sourceFile group,
    groups !! sourceFile = Some group -> NoDup group /\ group <> [].
Proof.
  intros Hg. destruct (groupFrom_Some _ _ _ _ _ Hg) as [Hmem Hgood].
  specialize (Hgood goodGroups_empty). split; [|exact Hgood].
  apply set_eq. intros f. rewrite elem_of_dom, elem_of_list_to_set.
  split.
  - intros [l Hl]. destruct (Hgood f l Hl) as [_ Hne].
    destruct l as [|y l]; [contradiction|].
    destruct (proj1 (Hmem f y)) as [Hf | (k & Hk & _)].
    + unfold Panel.groupOf. rewrite Hl. now left.
    + unfold Panel.groupOf in Hf. rewrite lookup_empty in Hf.
      now apply not_elem_of_nil in Hf.
    + eapply list_elem_of_lookup_2. exact Hk.
  - intros Hf. apply list_elem_of_lookup_1 in Hf as [k Hk].
    assert (Hy : packetNumbers !! (0 + k)%nat ∈ Panel.groupOf groups f).
    { apply Hmem. right. eauto. }
    unfold Panel.groupOf in Hy.
    destruct (groups !! f) as [l|]; [eauto|].
    now apply not_elem_of_nil in Hy.
Qed.

(** X21: the grouping throws its TypeError exactly when some source file
    of the column has a name that resolves on the prototype of the
    collecting object; the packet numbers play no part in it. *)
Theorem grouping_throws_iff (sourceFiles : list string)
    (packetNumbers : list Z) :
  Panel.groupPackets inherited sourceFiles packetNumbers = None <->
  exists sourceFile,
    sourceFile ∈ sourceFiles /\ inherited sourceFile = true.
Proof. apply groupFrom_None. Qed.

End Grouping.

Section PanelProperties.

Lemma includesName_In (l : list string) (x : string) :
  Panel.includesName l x = true <-> In x l.
Proof.
  unfold Panel.includesName. rewrite existsb_exists. split.
  - intros (y & Hy & Heq). apply String.eqb_eq in Heq. now subst y.
  - intros Hx. exists x. split; [assumption | apply String.eqb_refl].
Qed.

(** X22: the names reported missing are exactly the required column names
    that no field of the series has (all of them when there is no series
    or no field list); so nothing is reported exactly when the series has
    a source_file and a source_packet_number field. *)
Theorem missing_fields_exact (fieldNames : option (list string)) :
  (forall required,
      In required (Panel.missingFields fieldNames) <->
      In required Panel.requiredFieldNames /\
      ~ In required (default [] fieldNames)) /\
  (Panel.missingFields fieldNames = [] <->
   In "source_file" (default [] fieldNames) /\
   In "source_packet_number" (default [] fieldNames)).
Proof.
  assert (Hmem : forall required,
    In required (Panel.missingFields fieldNames) <->
    In required Panel.requiredFieldNames /\
    ~ In required (default [] fieldNames)).
  { intros required. unfold Panel.missingFields.
    rewrite filter_In, negb_true_iff, <- not_true_iff_false, includesName_In.
    split; intros [Hr Hn]; (split; [assumption|]); intros Hin; apply Hn.
    - destruct fieldNames as [names|]; [|destruct Hin].
      apply filter_In. split; [assumption | now apply includesName_In].
    - destruct fieldNames as [names|]; [|destruct Hin].
      now apply filter_In in Hin as [Hin _]. }
  split; [exact Hmem|]. split.
  - intros He.
    assert (Hno : forall required,
      In required Panel.requiredFieldNames ->
      In required (default [] fieldNames)).
    { intros required Hr.
      destruct (in_dec string_dec required (default [] fieldNames))
        as [Hin | Hout]; [assumption|].
      pose proof (proj2 (Hmem required) (conj Hr Hout)) as Hm.
      rewrite He in Hm. destruct Hm. }
    split; apply Hno; cbn; auto.
  - intros [Hs Hp].
    destruct (Panel.missingFields fieldNames) as [|r l] eqn:Em;
      [reflexivity|].
    destruct (proj1 (Hmem r)) as [Hr Hn]; [now left|].
    cbn in Hr. destruct Hr as [<- | [<- | []]]; contradiction.
Qed.

(** ** Reading a response *)

Lemma setField_lookup (values : list (list string)) (index : nat)
    (field : Panel.FieldSchema.t) (acc : gmap string string)
    (n v : string) :
  Panel.setField values index field acc !! n = Some v <->
  Panel.reads values index field n v \/
  ((forall v', ~ Panel.reads values index field n v') /\
   acc !! n = Some v).
Proof.
  unfold Panel.setField, Panel.reads.
  destruct (Panel.FieldSchema.name field) as [name|] eqn:En.
  2:{ split; [intros Ha; right; split; [|assumption] | intros [Hr | [_ Ha]]].
      - intros v' (Hn & _). discriminate.
      - destruct Hr as (Hn & _). discriminate.
      - assumption. }
  destruct (values !! index) as [[|first rest]|] eqn:Ev.
  1,3: (split; [intros Ha; right; split; [|assumption]
               | intros [Hr | [_ Ha]]];
        [intros v' (_ & _ & r & Hr); discriminate
        |destruct Hr as (_ & _ & r & Hr); discriminate
        |assumption]).
  destruct (name =? "")%string eqn:Eb;
    [apply String.eqb_eq in Eb | apply String.eqb_neq in Eb].
  - subst name. split; [intros Ha; right; split; [|assumption]
                       | intros [Hr | [_ Ha]]].
    + intros v' ([= <-] & Hne & _). contradiction.
    + destruct Hr as ([= <-] & Hne & _). contradiction.
    + assumption.
  - rewrite lookup_insert. case_decide as Hn.
    + subst n. split.
      * intros [= <-]. left. eauto.
      * intros [(_ & _ & r & [= <- _]) | [Hno _]]; [reflexivity|].
        exfalso. apply (Hno first). eauto.
    + split.
      * intros Ha. right. split; [|assumption].
        intros v' ([= Heq] & _). contradiction.
      * intros [([= Heq] & _) | [_ Ha]]; [contradiction | assumption].
Qed.

Lemma forEachField_snoc (values : list (list string))
    (fields : list Panel.FieldSchema.t) (field : Panel.FieldSchema.t) :
  forall (i : nat) (acc : gmap string string),
    Panel.forEachField i (fields ++ [field]) values acc =
      Panel.setField values (i + length fields) field
        (Panel.forEachField i fields values acc).
Proof.
  induction fields as [|f rest IH]; intros i acc; cbn.
  - now rewrite Nat.add_0_r.
  - rewrite IH. now rewrite Nat.add_succ_r.
Qed.

Lemma forEachField_lookup (values : list (list string)) (i : nat)
    (acc : gmap string string) (n v : string)
    (fields : list Panel.FieldSchema.t) :
  Panel.forEachField i fields values acc !! n = Some v <->
  (exists k f,
      fields !! k = Some f /\ Panel.reads values (i + k) f n v /\
      forall k' f' v',
        (k < k')%nat -> fields !! k' = Some f' ->
        ~ Panel.reads values (i + k') f' n v') \/
  ((forall k f v',
       fields !! k = Some f -> ~ Panel.reads values (i + k) f n v') /\
   acc !! n = Some v).
Proof.
  revert v. induction fields as [|field fields IH] using rev_ind; intros v.
  - cbn. split.
    + intros Ha. right. split; [|assumption].
      intros k f v' Hk. rewrite lookup_nil in Hk. discriminate.
    + intros [(k & f & Hk & _) | [_ Ha]]; [|assumption].
      rewrite lookup_nil in Hk. discriminate.
  - rewrite forEachField_snoc, setField_lookup, IH. clear IH.
    assert (Hlast : (fields ++ [field]) !! length fields = Some field).
    { rewrite lookup_app_r by lia. now rewrite Nat.sub_diag. }
    assert (Hold : forall k f,
      fields !! k = Some f -> (fields ++ [field]) !! k = Some f).
    { intros k f Hk. rewrite lookup_app_l; [assumption|].
      now apply lookup_lt_Some in Hk. }
    assert (Hsplit : forall k f,
      (fields ++ [field]) !! k = Some f ->
      fields !! k = Some f \/ (k = length fields /\ f = field)).
    { intros k f Hk. destruct (Nat.lt_ge_cases k (length fields)) as [Hlt|Hge].
      - left. now rewrite lookup_app_l in Hk.
      - right. rewrite lookup_app_r in Hk by assumption.
        destruct (k - length fields)%nat as [|j] eqn:Ej; cbn in Hk;
          [|try rewrite lookup_nil in Hk; discriminate].
        injection Hk as <-. split; [lia | reflexivity]. }
    split.
    + intros [Hr | [Hno [(k & f & Hk & Hr & Hlater) | [Hnone Ha]]]].
      * left. exists (length fields), field. split; [assumption|].
        split; [assumption|].
        intros k' f' v' Hlt Hk'. apply lookup_lt_Some in Hk'.
        rewrite length_app in Hk'. cbn in Hk'. lia.
      * left. exists k, f. split; [auto|]. split; [assumption|].
        intros k' f' v' Hlt Hk'.
        destruct (Hsplit _ _ Hk') as [Hin | [-> ->]]; [eauto | apply Hno].
      * right. split; [|assumption]. intros k f v' Hk.
        destruct (Hsplit _ _ Hk) as [Hin | [-> ->]]; [eauto | apply Hno].
    + intros [(k & f & Hk & Hr & Hlater) | [Hnone Ha]].
      * destruct (Hsplit _ _ Hk) as [Hin | [-> ->]]; [|now left].
        right. split.
        -- intros v'. apply (Hlater (length fields) field v');
             [now apply lookup_lt_Some in Hin | assumption].
        -- left. exists k, f. split; [assumption|]. split; [assumption|].
           intros k' f' v' Hlt Hk'. eauto.
      * right. split; [intros v'; eauto|].
        right. split; [|assumption]. intros k f v' Hk. eauto.
Qed.

(** X23: for a response that has its pcap-extract result, a first frame,
    a schema with fields and data with values, the map read from it gives
    a name a value exactly when some field has that name, not blank, with
    a column that is there and not empty and starts with the value, and no
    later field of the same name has such a column: fields without a
    name, without a column or with an empty column are skipped, and of
    two fields with one name the later wins. *)
Theorem response_fields_read (results : gmap string Panel.Result.t)
    (otherFrames : list Panel.Frame.t)
    (fields : list Panel.FieldSchema.t) (values : list (list string))
    (name value : string) :
  results !! "pcap-extract" =
    Some (Panel.Result.mk
            (Some (Panel.Frame.mk
                     (Some (Panel.Schema.mk (Some fields)))
                     (Some (Panel.Data.mk (Some values)))
                   :: otherFrames))) ->
  (Panel.extractFieldValues
     (Some (Panel.Response.mk (Some results))) !! name = Some value <->
   exists k field,
     fields !! k = Some field /\ Panel.reads values k field name value /\
     forall k' field' value',
       (k < k')%nat -> fields !! k' = Some field' ->
       ~ Panel.reads values k' field' name value').
Proof.
  intros Hr. unfold Panel.extractFieldValues. cbn. rewrite Hr. cbn.
  rewrite forEachField_lookup. cbn. split.
  - intros [H | [_ He]]; [exact H|]. rewrite lookup_empty in He.
    discriminate.
  - intros H. now left.
Qed.

(** ** The reaction to a status *)

(** X24: after a response with a status that is not blank, the polling
    timer is still set exactly when it was set before and the status is
    RUNNING: every other status stops the polling. *)
Theorem polling_continues_iff (responseData : gmap string string)
    (st : Panel.State.t) (status : string) :
  responseData !! "status" = Some status ->
  status <> "" ->
  (Panel.State.polling (Panel.onStatusResponse responseData st) = true <->
   Panel.State.polling st = true /\ status = "RUNNING").
Proof.
  intros Hs Hne. unfold Panel.onStatusResponse. rewrite Hs.
  apply String.eqb_neq in Hne. rewrite Hne.
  destruct (status =? "RUNNING")%string eqn:Er.
  { apply String.eqb_eq in Er. subst status. intuition. }
  apply String.eqb_neq in Er.
  destruct (status =? "SUCCEEDED")%string;
    [destruct (responseData !! "download_url") as [u|];
       [cbn; destruct (u =? "")%string|]|];
    cbn; split; try discriminate; intros [_ ->]; contradiction.
Qed.

(** X25: a status response hands at most one URL to the browser, and it
    does so exactly when the status is SUCCEEDED and the response has a
    download_url that is not blank; a SUCCEEDED response without one
    still ends in the downloaded state, with no download and no error
    set. *)
Theorem download_triggered_iff (responseData : gmap string string)
    (st : Panel.State.t) :
  (forall url,
      responseData !! "status" = Some "SUCCEEDED" ->
      responseData !! "download_url" = Some url -> url <> "" ->
      Panel.State.triggered (Panel.onStatusResponse responseData st) =
        Panel.State.triggered st ++ [url]) /\
  (~ (responseData !! "status" = Some "SUCCEEDED" /\
      exists url, responseData !! "download_url" = Some url /\ url <> "") ->
   Panel.State.triggered (Panel.onStatusResponse responseData st) =
     Panel.State.triggered st) /\
  (responseData !! "status" = Some "SUCCEEDED" ->
   Panel.State.downloadState (Panel.onStatusResponse responseData st) =
     Panel.downloaded /\
   Panel.State.error (Panel.onStatusResponse responseData st) =
     Panel.State.error st).
Proof.
  unfold Panel.onStatusResponse. split; [|split].
  - intros url -> -> Hu. cbn. apply String.eqb_neq in Hu. now rewrite Hu.
  - intros Hno.
    destruct (responseData !! "status") as [s|]; [|reflexivity].
    destruct (s =? "")%string; [reflexivity|].
    destruct (s =? "RUNNING")%string; [reflexivity|].
    destruct (s =? "SUCCEEDED")%string eqn:Es; [|reflexivity].
    apply String.eqb_eq in Es. subst s.
    destruct (responseData !! "download_url") as [u|]; [|reflexivity].
    cbn. destruct (u =? "")%string eqn:Eu; [reflexivity|].
    apply String.eqb_neq in Eu. exfalso. apply Hno. eauto.
  - intros ->. cbn.
    destruct (responseData !! "download_url") as [u|]; [|split; reflexivity].
    cbn. destruct (u =? "")%string; split; reflexivity.
Qed.

(** X26: polling never puts the component into the error state and never
    leaves the processing state except to downloaded: after any response
    that is not SUCCEEDED, a failed execution included, a component that
    was processing is still processing and its button is still disabled,
    whatever the panel's options and data. *)
Theorem failed_job_keeps_button_disabled
    (responseData : gmap string string) (st : Panel.State.t)
    (text : option string) (isConfigured hasData isDataLoading : bool) :
  Panel.State.downloadState st = Panel.processing ->
  responseData !! "status" <> Some "SUCCEEDED" ->
  Panel.State.downloadState (Panel.onStatusResponse responseData st) =
    Panel.processing /\
  Panel.ButtonProps.disabled
    (Panel.getButtonProps
       (Panel.State.downloadState (Panel.onStatusResponse responseData st))
       text isConfigured hasData isDataLoading) = true.
Proof.
  intros Hp Hs.
  assert (Hd : Panel.State.downloadState
                 (Panel.onStatusResponse responseData st) =
               Panel.processing).
  { unfold Panel.onStatusResponse.
    destruct (responseData !! "status") as [s|]; [|exact Hp].
    destruct (s =? "")%string; [exact Hp|].
    destruct (s =? "RUNNING")%string; [exact Hp|].
    destruct (s =? "SUCCEEDED")%string eqn:Es.
    - apply String.eqb_eq in Es. subst s. contradiction.
    - destruct (responseData !! "error"), (responseData !! "cause");
        exact Hp. }
  rewrite Hd. split; reflexivity.
Qed.

End PanelProperties.

(** * Properties of the query filter *)

Section FilterProperties.

Context {W : Type} {libs : GoLibraries}.

(** X27: a query the frontend filter lets through as a request carries
    a job id that is not blank and an extraction map that is not empty,
    so the backend's request handler does not turn it down for either:
    its run starts with the log line of an accepted request. *)
Theorem filtered_request_passes_validation (q : Frontend.MyQuery.t)
    (d : Datasource W) (qm : queryModel) (w : W) :
  Frontend.filterQuery q = true ->
  Frontend.MyQuery.action q <> Some "status" ->
  Frontend.MyQuery.JobId q = Some (JobId qm) ->
  Frontend.MyQuery.Extract q = Some (Extract qm) ->
  JobId qm <> "" /\ size (Extract qm) <> 0%nat /\
  exists rest,
    eventsOf (handleRequestAction d qm w) = requestLog qm :: rest.
Proof.
  intros Hf Ha Hj He. unfold Frontend.filterQuery in Hf.
  assert (Hreq :
    Frontend.truthy (Frontend.MyQuery.JobId q) &&
    Frontend.truthy (Frontend.MyQuery.Bucket q) &&
    match Frontend.MyQuery.Extract q with
    | Some extract => (0 <? size extract)%nat
    | None => false
    end = true).
  { destruct (Frontend.MyQuery.action q) as [a|]; [|exact Hf].
    destruct (a =? "")%string; [exact Hf|].
    destruct (a =? "request")%string; [exact Hf|].
    destruct (a =? "status")%string eqn:Es; [|discriminate Hf].
    apply String.eqb_eq in Es. subst a. contradiction. }
  rewrite Hj, He in Hreq.
  apply andb_true_iff in Hreq as [Hjb Hsize].
  apply andb_true_iff in Hjb as [Hjb _].
  unfold Frontend.truthy in Hjb. apply negb_true_iff in Hjb.
  apply String.eqb_neq in Hjb. apply Nat.ltb_lt in Hsize.
  assert (Hne : size (Extract qm) <> 0%nat) by lia.
  repeat split; [assumption..|].
  pose proof (handleRequestAction_run d qm w) as Hr.
  destruct (handleRequestAction d qm w) as [[o tr] w'].
  unfold eventsOf. cbn [fst snd].
  inversion Hr; subst; try contradiction; eauto.
Qed.

End FilterProperties.

(** * The further properties on concrete runs *)

Import MoreExamples.

Lemma empty_extract_rejected_witness :
  handleRequestAction dsNoClients qmNoExtract 0%nat =
    (Returned (backend.ErrDataResponse backend.StatusBadRequest
                 "Extract parameter is required for request action"),
     [], 0%nat).
Proof.
  exact (empty_extract_rejected dsNoClients qmNoExtract 0%nat eq_refl).
Defined.

Lemma start_failure_surfaced_witness :
  outcomeOf (handleRequestAction dsStartFailing qmRequest 0%nat) =
    Returned (backend.ErrDataResponse backend.StatusBadRequest
                ("Step Function execution failed: " +:+
                 "failed to execute Step Function execution: " +:+
                 "execution failed")) /\
  startExecutionCalls (eventsOf (handleRequestAction dsStartFailing
                                   qmRequest 0%nat)) = [startInput] /\
  In (LogCall backend.Error "Failed to execute Step Function"
        [LString "error";
         LError ("failed to execute Step Function execution: " +:+
                 "execution failed")])
     (eventsOf (handleRequestAction dsStartFailing qmRequest 0%nat)).
Proof.
  refine (start_failure_surfaced dsStartFailing qmRequest 0%nat startInput
            "execution failed" _).
  vm_compute. right. left. reflexivity.
Defined.

Lemma describe_failure_surfaced_witness :
  outcomeOf (handleStatusAction dsDescribeFailing qmStatus 0%nat) =
    Returned (backend.ErrDataResponse backend.StatusBadRequest
                ("Failed to get execution status: " +:+
                 "execution not found")) /\
  clientCalls (eventsOf (handleStatusAction dsDescribeFailing qmStatus
                           0%nat)) =
    [DescribeExecutionCall describeInput (inr "execution not found")].
Proof.
  refine (describe_failure_surfaced dsDescribeFailing qmStatus 0%nat
            describeInput "execution not found" _).
  vm_compute. do 2 right. left. reflexivity.
Defined.

Lemma status_frame_fields_witness :
  exists frame,
    outcomeOf (handleStatusAction (dsDescribing failedBoth presignOk)
                 qmStatus 0%nat) =
      Returned (backend.DataResponse.mk [frame] None 0) /\
    nth_error (data.Frame.Fields frame) 0 =
      Some (data.Field.mk "status" None ["FAILED"]) /\
    (hasField "error" frame = true <->
     sfn.DescribeExecutionOutput.Status failedBoth = "FAILED" /\
     sfn.DescribeExecutionOutput.Error failedBoth <> None) /\
    (hasField "cause" frame = true <->
     sfn.DescribeExecutionOutput.Cause failedBoth <> None) /\
    (hasField "download_url" frame = true ->
     sfn.DescribeExecutionOutput.Status failedBoth = "SUCCEEDED").
Proof.
  refine (status_frame_fields (dsDescribing failedBoth presignOk) qmStatus
            0%nat describeInput failedBoth _).
  vm_compute. do 2 right. left. reflexivity.
Defined.

Lemma execution_arn_of_state_machine_witness :
  describeExecutionCalls (eventsOf (handleStatusAction dsStarting qmStatus
                                      0%nat)) =
    [sfn.DescribeExecutionInput.mk
       ("arn:aws:states:" +:+ "us-east-1" +:+ ":" +:+ "123456789012" +:+
        ":execution:" +:+ "test-state-machine" +:+ ":" +:+ "test-job-123")].
Proof.
  refine (execution_arn_of_state_machine dsStarting qmStatus 0%nat
            (arn.mkARN "aws" "states" "us-east-1" "123456789012"
                       "stateMachine:test-state-machine")
            (mockSFN startedOk (inl succeededPlain) machineOk)
            "test-state-machine" _ _ _ eq_refl).
  - discriminate.
  - vm_compute. reflexivity.
  - reflexivity.
Defined.

Lemma execution_arn_of_other_resource_witness :
  describeExecutionCalls (eventsOf (handleStatusAction dsActivityArn qmStatus
                                      0%nat)) =
    [sfn.DescribeExecutionInput.mk
       ("arn:aws:states:" +:+ "us-east-1" +:+ ":" +:+ "123456789012" +:+
        ":execution:" +:+ "activity:my-activity" +:+ ":" +:+
        "test-job-123")].
Proof.
  refine (execution_arn_of_other_resource dsActivityArn qmStatus 0%nat
            (arn.mkARN "aws" "states" "us-east-1" "123456789012"
                       "activity:my-activity")
            (mockSFN startedOk (inl succeededPlain) machineOk)
            _ _ _ eq_refl).
  - discriminate.
  - vm_compute. reflexivity.
  - vm_compute. reflexivity.
Defined.

Lemma query_response_shape_witness :
  wellShaped (unknownAction "bogus").
Proof.
  refine (query_response_shape dsStarting pluginContext bogusQuery 0%nat
            (unknownAction "bogus") _).
  vm_compute. reflexivity.
Defined.


Lemma incomplete_settings_rejected_witness :
  query dsBlank pluginContext brokenQuery 0%nat =
    (Returned
       (backend.ErrDataResponse backend.StatusBadRequest
          ("Incomplete plugin settings: " +:+
           "Step Function ARN not configured")),
     [], 0%nat).
Proof.
  exact (incomplete_settings_rejected dsBlank pluginContext brokenQuery
           0%nat (or_introl eq_refl)).
Defined.

Lemma undecodable_payload_rejected_witness :
  query dsStarting pluginContext brokenQuery 0%nat =
    (Returned (backend.ErrDataResponse backend.StatusBadRequest
                 ("json unmarshal: " +:+
                  "invalid character looking for beginning of value")),
     [], 0%nat).
Proof.
  refine (undecodable_payload_rejected dsStarting pluginContext brokenQuery
            0%nat "invalid character looking for beginning of value" _ _);
    vm_compute; reflexivity.
Defined.

Lemma health_ok_iff_witness :
  backend.HealthStatusOk = backend.HealthStatusOk <->
  validateSettings dsNoClients = None /\
  forall i err,
    ~ In (DescribeStateMachineCall i (inr err))
         (eventsOf (CheckHealth dsNoClients healthRequest 0%nat)).
Proof.
  refine (health_ok_iff dsNoClients healthRequest 0%nat
            (backend.CheckHealthResult.mk backend.HealthStatusOk
               "Data source is working: S3 Bucket access is not being tested.")
            None _).
  reflexivity.
Defined.

Lemma health_reports_engine_error_witness :
  outcomeOf (CheckHealth dsUnreachable healthRequest 0%nat) =
    Returned (backend.CheckHealthResult.mk backend.HealthStatusError
                ("Cannot access Step Function: " +:+
                 "StateMachineDoesNotExist: State Machine Does Not Exist"),
              None).
Proof.
  refine (health_reports_engine_error dsUnreachable healthRequest 0%nat
            (sfn.DescribeStateMachineInput.mk
               (models.StepFunctionArn testSettings))
            "StateMachineDoesNotExist: State Machine Does Not Exist" _).
  left. reflexivity.
Defined.

Lemma QueryData_responses_witness :
  @None error = None /\
  dom ({[ "A" := unknownAction "other" ]}
         : gmap string backend.DataResponse.t) =
    refIDs [bogusQuery; otherQuery] /\
  forall k r,
    ({[ "A" := unknownAction "other" ]}
       : gmap string backend.DataResponse.t) !! k = Some r ->
    wellShaped r.
Proof.
  refine (QueryData_responses dsStarting pluginContext
            [bogusQuery; otherQuery] 0%nat
            {[ "A" := unknownAction "other" ]} None _).
  vm_compute. reflexivity.
Defined.

Lemma QueryData_appends_last_witness :
  QueryData dsStarting pluginContext ([bogusQuery] ++ [otherQuery]) 0%nat =
    (Returned (<["A" := unknownAction "other"]>
                 {[ "A" := unknownAction "bogus" ]}, None),
     [] ++ [], 0%nat).
Proof.
  refine (QueryData_appends_last dsStarting pluginContext [bogusQuery]
            otherQuery {[ "A" := unknownAction "bogus" ]}
            0%nat 0%nat 0%nat [] [] (unknownAction "other") _ _);
    vm_compute; reflexivity.
Defined.

Lemma QueryData_incomplete_settings_witness :
  exists m,
    QueryData dsNoArn pluginContext [bogusQuery; statusQuery] 0%nat =
      (Returned (m, None), [], 0%nat) /\
    forall q, In q [bogusQuery; statusQuery] ->
      m !! backend.DataQuery.RefID q =
        Some (backend.ErrDataResponse backend.StatusBadRequest
                ("Incomplete plugin settings: " +:+
                 "Step Function ARN not configured")).
Proof.
  exact (QueryData_incomplete_settings dsNoArn pluginContext
           [bogusQuery; statusQuery] 0%nat
           "Step Function ARN not configured" eq_refl).
Defined.

Lemma grouping_membership_witness :
  (exists group,
      groups !! "a.pcap" = Some group /\ Some 3 ∈ group) <->
  exists i,
    sourceFiles !! i = Some "a.pcap" /\ Some 3 = packetNumbers !! i.
Proof.
  refine (grouping_membership onPrototype sourceFiles packetNumbers groups
            "a.pcap" (Some 3) _).
  vm_compute. reflexivity.
Defined.

Lemma grouping_keys_and_groups_witness :
  dom groups = list_to_set sourceFiles /\
  forall sourceFile group,
    groups !! sourceFile = Some group -> NoDup group /\ group <> [].
Proof.
  refine (grouping_keys_and_groups onPrototype sourceFiles packetNumbers
            groups _).
  vm_compute. reflexivity.
Defined.

Lemma response_fields_read_witness :
  Panel.extractFieldValues
    (Some (Panel.Response.mk (Some failedResults))) !! "cause" =
    Some "Network timeout" <->
  exists k field,
    failedFields !! k = Some field /\
    Panel.reads failedValues k field "cause" "Network timeout" /\
    forall k' field' value',
      (k < k')%nat -> failedFields !! k' = Some field' ->
      ~ Panel.reads failedValues k' field' "cause" value'.
Proof.
  refine (response_fields_read failedResults [] failedFields failedValues
            "cause" "Network timeout" _).
  vm_compute. reflexivity.
Defined.

Lemma polling_continues_iff_witness :
  Panel.State.polling (Panel.onStatusResponse failedData polling) = true <->
  Panel.State.polling polling = true /\ "FAILED" = "RUNNING".
Proof.
  refine (polling_continues_iff failedData polling "FAILED" _ _).
  - vm_compute. reflexivity.
  - discriminate.
Defined.

Lemma failed_job_keeps_button_disabled_witness :
  Panel.State.downloadState (Panel.onStatusResponse failedData polling) =
    Panel.processing /\
  Panel.ButtonProps.disabled
    (Panel.getButtonProps
       (Panel.State.downloadState (Panel.onStatusResponse failedData polling))
       None true true false) = true.
Proof.
  refine (failed_job_keeps_button_disabled failedData polling None
            true true false eq_refl _).
  vm_compute. discriminate.
Defined.

Lemma filtered_request_passes_validation_witness :
  JobId qmRequest <> "" /\ size (Extract qmRequest) <> 0%nat /\
  exists rest,
    eventsOf (handleRequestAction dsStarting qmRequest 0%nat) =
      requestLog qmRequest :: rest.
Proof.
  refine (filtered_request_passes_validation filteredQuery dsStarting
            qmRequest 0%nat _ _ eq_refl eq_refl).
  - vm_compute. reflexivity.
  - discriminate.
Defined.
